(** * GreenSkies Ultra: the calculation engine and the history ledger

    A shallow embedding of [greenskies_final.py]: the module-level helpers
    ([load_csv_factors], [haversine_km], [estimate_co2],
    [fuel_liters_from_co2], [trees_needed], [log_history_row]) and the three
    methods of [GreenSkiesUltra] that carry the domain logic
    ([calculate_action], [_refresh_history_tree], [export_history]).

    Conventions of the embedding.
    - A Python [float] is a real number ([R]): the arithmetic is the exact
      one, rounding to binary64 and the values [inf]/[nan] are not part of
      the model. Where rounding decides a property, the module [Binary64]
      has the estimator in binary64 itself.
    - A Python [str] and the content of a file are byte strings ([string]);
      text is UTF-8 and every character the code inspects is ASCII except
      the en dash of the combo-box labels, which is its three bytes.
      [str.strip] and [str.upper] act on the ASCII characters.
    - A file system is a finite map from paths to file contents; [csv] and
      the text mode of [open] are modelled on these contents. A key stands
      for a file; [export_history_to] resolves the path that the save
      dialog answers, which can name the ledger under another text.
    - The widgets are a record of the values the code reads from them; a
      modal dialog is the outcome the method returns. The texts of the
      result cards and of the suggestion, the comparison chart and the
      screenshot are left out. *)

From Stdlib Require Import Reals Lra ZArith String Ascii List DecimalString.
From Stdlib Require Floats Uint63.
From stdpp Require Import base option list gmap strings fin_maps.

Open Scope R_scope.

(** ** Module constants *)

Definition EMISSION_CSV : string := "emission_factors_extended.csv".
Definition AIRPORTS_CSV : string := "airports_extended.csv".
Definition HISTORY_CSV : string := "history.csv".
Definition RF_MULTIPLIER : R := 19 / 10.
Definition OFFSET_COST_PER_KG : R := 60 / 100.
Definition SAF_MAX_REDUCTION_PERCENT : R := 80 / 100.
Definition CO2_TO_FUEL_FACTOR : R := 316 / 100.
Definition FUEL_DENSITY_KG_LITER : R := 8 / 10.
Definition SHORT_HAUL_MAX_KM : R := 1500.
Definition SHORT_HAUL_LTO_CO2_FIXED_KG : R := 50.
Definition LONG_HAUL_LTO_CO2_FIXED_KG : R := 150.

(** ** The estimator *)

(** [math.radians] *)
Definition radians (deg : R) : R := deg * (PI / 180).

(** [math.atan2 y x], the angle of the point [(x, y)] in [(-PI, PI]]. *)
Definition atan2 (y x : R) : R :=
  if Rlt_dec 0 x then atan (y / x)
  else if Rlt_dec x 0 then
    (if Rle_dec 0 y then atan (y / x) + PI else atan (y / x) - PI)
  else if Rlt_dec 0 y then PI / 2
  else if Rlt_dec y 0 then - (PI / 2)
  else 0.

(** The quantity [a] of [haversine_km]. *)
Definition haversine_a (lat1 lon1 lat2 lon2 : R) : R :=
  let phi1 := radians lat1 in
  let phi2 := radians lat2 in
  let dphi := radians (lat2 - lat1) in
  let dlambda := radians (lon2 - lon1) in
  (sin (dphi / 2))² + cos phi1 * cos phi2 * (sin (dlambda / 2))².

Definition haversine_km (lat1 lon1 lat2 lon2 : R) : R :=
  let R0 := 6371 in
  let a := haversine_a lat1 lon1 lat2 lon2 in
  let c := 2 * atan2 (sqrt a) (sqrt (1 - a)) in
  R0 * c.

Definition estimate_co2 (distance_km base_factor : R) (rf : bool) : R :=
  let fixed :=
    if Rle_dec distance_km SHORT_HAUL_MAX_KM
    then SHORT_HAUL_LTO_CO2_FIXED_KG else LONG_HAUL_LTO_CO2_FIXED_KG in
  let total := distance_km * base_factor + fixed in
  if rf then total * RF_MULTIPLIER else total.

Definition fuel_liters_from_co2 (co2_kg : R) : R :=
  let fuel_kg := co2_kg / CO2_TO_FUEL_FACTOR in
  fuel_kg / FUEL_DENSITY_KG_LITER.

Definition trees_needed (co2 : R) : R := co2 / 22.

(** Lines 800-802 of [calculate_action] (and 879-880 of [compare_action]):
    the SAF reduction applied to an estimate. [saf_pct] is the [int] read
    from the slider variable, which the slider keeps from 0 to 50, and
    [saf_pct / 100] is Python's true division, here the exact quotient. *)
Definition apply_saf (co2 : R) (saf_pct : Z) : R :=
  if Z.ltb 0 saf_pct then
    let reduction := IZR saf_pct / 100 * SAF_MAX_REDUCTION_PERCENT in
    co2 * (1 - reduction)
  else co2.

(** Lines 798-802: the CO2 figure of a calculation. *)
Definition co2_of (dist base_factor : R) (rf : bool) (saf_pct : Z) : R :=
  apply_saf (estimate_co2 dist base_factor rf) saf_pct.


(** ** Text *)

Definition COMMA : ascii := ","%char.
Definition DQUOTE : ascii := "034"%char.
Definition CR : ascii := "013"%char.
Definition LF : ascii := "010"%char.
Definition CRLF : string := String CR (String LF "").

(** The en dash of the combo-box labels and the arrow of the route column,
    as their UTF-8 bytes. *)
Definition EN_DASH : string :=
  String "226"%char (String "128"%char (String "147"%char "")).
Definition ARROW : string :=
  String "226"%char (String "134"%char (String "146"%char "")).

(** [str.isspace] on the ASCII range. *)
Definition is_space (c : ascii) : bool :=
  let n := N_of_ascii c in
  ((9 <=? n) && (n <=? 13) || (28 <=? n) && (n <=? 32))%N.

Fixpoint lstrip (s : string) : string :=
  match s with
  | String c s' => if is_space c then lstrip s' else s
  | EmptyString => EmptyString
  end.

Definition rstrip (s : string) : string := String.rev (lstrip (String.rev s)).

(** [str.strip()] *)
Definition strip (s : string) : string := rstrip (lstrip s).

Definition upper_char (c : ascii) : ascii :=
  let n := N_of_ascii c in
  if ((97 <=? n) && (n <=? 122))%N then ascii_of_N (n - 32) else c.

(** [str.upper()] on ASCII letters. *)
Fixpoint upper (s : string) : string :=
  match s with
  | String c s' => String (upper_char c) (upper s')
  | EmptyString => EmptyString
  end.

(** [before_sep sep s] is [s.split(sep)[0]] when [sep in s], and [None]
    when [sep] does not occur in [s]. *)
Fixpoint before_sep (sep s : string) : option string :=
  if String.prefix sep s then Some EmptyString
  else match s with
       | String c s' => String c <$> before_sep sep s'
       | EmptyString => None
       end.

(** [str(b)] for a [bool] and [str(n)] for an [int]. *)
Definition str_bool (b : bool) : string := if b then "True" else "False".
Definition str_int (n : Z) : string := NilZero.string_of_int (Z.to_int n).

(** ** The [csv] module, dialect [excel] *)

(** *** [csv.writer] *)

(** A character that forces the field to be quoted: the delimiter, the
    quote character, or a character of the line terminator. *)
Definition is_special (c : ascii) : bool :=
  Ascii.eqb c COMMA || Ascii.eqb c DQUOTE || Ascii.eqb c CR || Ascii.eqb c LF.

Fixpoint has_special (s : string) : bool :=
  match s with
  | String c s' => is_special c || has_special s'
  | EmptyString => false
  end.

(** The quote character is doubled inside a quoted field. *)
Fixpoint double_quotes (s : string) : string :=
  match s with
  | String c s' =>
      if Ascii.eqb c DQUOTE then String DQUOTE (String DQUOTE (double_quotes s'))
      else String c (double_quotes s')
  | EmptyString => EmptyString
  end.

Definition quoted (s : string) : string :=
  String DQUOTE (double_quotes s +:+ String DQUOTE "").

Definition csv_field (s : string) : string :=
  if has_special s then quoted s else s.

Fixpoint csv_join (fields : list string) : string :=
  match fields with
  | [] => ""
  | [f] => csv_field f
  | f :: fs => csv_field f +:+ String COMMA (csv_join fs)
  end.

(** [writer.writerow(row)]: the text added to the file. A row whose only
    field is empty is written as a pair of quotes. *)
Definition csv_writerow (row : list string) : string :=
  match row with
  | [EmptyString] => quoted "" +:+ CRLF
  | _ => csv_join row +:+ CRLF
  end.

(** The text of a file made of rows written one after the other. *)
Definition csv_text (rows : list (list string)) : string :=
  foldr (fun row text => csv_writerow row +:+ text) "" rows.

(** *** [csv.reader] *)

Inductive parser_state :=
  | START_RECORD | START_FIELD | IN_FIELD | IN_QUOTED_FIELD
  | QUOTE_IN_QUOTED_FIELD | EAT_CRNL.

Global Instance parser_state_eq_dec : EqDecision parser_state.
Proof. solve_decision. Defined.

Record reader := Reader {
  state : parser_state;
  field : string;          (* the field being read *)
  fields : list string     (* the fields of the record read so far *)
}.

(** A character of a line, or the end of the line. *)
Inductive symbol := Ch (c : ascii) | EOL.

Definition parse_reset : reader := Reader START_RECORD "" [].

Definition parse_add_char (r : reader) (c : ascii) (st : parser_state) : reader :=
  Reader st (field r +:+ String c "") (fields r).

Definition parse_save_field (r : reader) (st : parser_state) : reader :=
  Reader st "" (fields r ++ [field r]).

Definition is_newline (c : ascii) : bool := Ascii.eqb c LF || Ascii.eqb c CR.

(** The automaton of the reader; [None] is the [_csv.Error] raised for a
    character after a line break inside a line. *)
Definition parse_process_char (r : reader) (x : symbol) : option reader :=
  match state r, x with
  | START_RECORD, EOL => Some r
  | START_RECORD, Ch c =>
      if is_newline c then Some (Reader EAT_CRNL (field r) (fields r))
      else if Ascii.eqb c DQUOTE then Some (Reader IN_QUOTED_FIELD (field r) (fields r))
      else if Ascii.eqb c COMMA then Some (parse_save_field r START_FIELD)
      else Some (parse_add_char r c IN_FIELD)
  | START_FIELD, EOL => Some (parse_save_field r START_RECORD)
  | START_FIELD, Ch c =>
      if is_newline c then Some (parse_save_field r EAT_CRNL)
      else if Ascii.eqb c DQUOTE then Some (Reader IN_QUOTED_FIELD (field r) (fields r))
      else if Ascii.eqb c COMMA then Some (parse_save_field r START_FIELD)
      else Some (parse_add_char r c IN_FIELD)
  | IN_FIELD, EOL => Some (parse_save_field r START_RECORD)
  | IN_FIELD, Ch c =>
      if is_newline c then Some (parse_save_field r EAT_CRNL)
      else if Ascii.eqb c COMMA then Some (parse_save_field r START_FIELD)
      else Some (parse_add_char r c IN_FIELD)
  | IN_QUOTED_FIELD, EOL => Some r
  | IN_QUOTED_FIELD, Ch c =>
      if Ascii.eqb c DQUOTE then Some (Reader QUOTE_IN_QUOTED_FIELD (field r) (fields r))
      else Some (parse_add_char r c IN_QUOTED_FIELD)
  | QUOTE_IN_QUOTED_FIELD, EOL => Some (parse_save_field r START_RECORD)
  | QUOTE_IN_QUOTED_FIELD, Ch c =>
      if Ascii.eqb c DQUOTE then Some (parse_add_char r c IN_QUOTED_FIELD)
      else if Ascii.eqb c COMMA then Some (parse_save_field r START_FIELD)
      else if is_newline c then Some (parse_save_field r EAT_CRNL)
      else Some (parse_add_char r c IN_FIELD)
  | EAT_CRNL, EOL => Some (Reader START_RECORD (field r) (fields r))
  | EAT_CRNL, Ch c => if is_newline c then Some r else None
  end.

(** The reader is at the start of a field: at the start of a record or
    after a delimiter, with nothing read of the field. *)
Definition field_start (st : parser_state) : Prop :=
  st = START_RECORD \/ st = START_FIELD.

(** The first character of [s] is [c]. *)
Definition starts_with (c : ascii) (s : string) : bool :=
  match s with
  | String c' _ => Ascii.eqb c' c
  | EmptyString => false
  end.

(** A file opened with [newline=''] is iterated line by line, a line ending
    after a line feed, after a carriage return that no line feed follows,
    or at the end of the file; the line breaks stay in the line.
    [line_ends c rest]: the line ends after [c], which [rest] follows. *)
Definition line_ends (c : ascii) (rest : string) : bool :=
  Ascii.eqb c LF
  || Ascii.eqb c CR && negb (starts_with LF rest)
  || String.eqb rest "".

(** The records the reader yields on the rest of the file: every character
    goes through the automaton, followed by [EOL] at the end of its line,
    and a record is complete when a line leaves the automaton in
    [START_RECORD]. At the end of the file an unfinished quoted field
    closes the last record. *)
Fixpoint parse_lines (r : reader) (s : string) : option (list (list string)) :=
  match s with
  | EmptyString =>
      if negb (String.eqb (field r) "") || bool_decide (state r = IN_QUOTED_FIELD)
      then Some [fields r ++ [field r]] else Some []
  | String c rest =>
      r1 ← parse_process_char r (Ch c);
      if line_ends c rest then
        r2 ← parse_process_char r1 EOL;
        if bool_decide (state r2 = START_RECORD)
        then cons (fields r2) <$> parse_lines parse_reset rest
        else parse_lines r2 rest
      else parse_lines r1 rest
  end.

(** [list(csv.reader(f))] on the content of [f]. *)
Definition csv_reader (content : string) : option (list (list string)) :=
  parse_lines parse_reset content.

(** *** [csv.DictReader] *)

(** A row of a [DictReader], restricted to its string keys: a column maps
    to its field, or to [None] when the row is too short to have it. *)
Abbreviation dictrow := (gmap string (option string)).

Fixpoint dict_zip (names fs : list string) (d : dictrow) : dictrow :=
  match names, fs with
  | n :: names', f :: fs' => dict_zip names' fs' (<[n := Some f]> d)
  | _, _ => d
  end.

Definition dict_of_row (fieldnames row : list string) : dictrow :=
  foldl (fun d k => <[k := None]> d)
        (dict_zip fieldnames row ∅)
        (drop (length row) fieldnames).

(** The first record gives the field names; empty records are skipped. *)
Definition dict_rows (records : list (list string)) : list dictrow :=
  match records with
  | [] => []
  | fieldnames :: rows =>
      dict_of_row fieldnames <$> filter (fun row => row ≠ []) rows
  end.

Definition DictReader (content : string) : option (list dictrow) :=
  dict_rows <$> csv_reader content.

(** ** Exceptions *)

Inductive pyexn :=
  | FileNotFoundError | KeyError | TypeError | ValueError | CsvError.

(** The result of a computation that may raise. *)
Inductive res (A : Type) :=
  | Ok (a : A)
  | Raise (e : pyexn).
Arguments Ok {A} a.
Arguments Raise {A} e.

Global Instance res_bind : MBind res := fun A B f m =>
  match m with Ok a => f a | Raise e => Raise e end.
Global Instance res_ret : MRet res := fun A a => Ok a.

(** ** Built-in conversions between text and numbers

    [float(s)] on a string ([None] is its [ValueError]) and the format
    [f"{x:.1f}"] are taken as they are, as parameters of the engine. *)
Record builtins := Builtins {
  py_float : string -> option R;
  fmt_1f : R -> string
}.

(** ** Files *)

Abbreviation filesystem := (gmap string string).

(** [os.path.exists] *)
Definition path_exists (fs : filesystem) (path : string) : bool :=
  bool_decide (is_Some (fs !! path)).

(** [open(path, 'a', newline='')]: the file is created when it is missing;
    [write] adds the text at its end, as it is. *)
Definition open_append (fs : filesystem) (path : string) : filesystem :=
  match fs !! path with
  | Some _ => fs
  | None => <[path := ""]> fs
  end.

Definition write_append (fs : filesystem) (path data : string) : filesystem :=
  <[path := default "" (fs !! path) +:+ data]> fs.

(** A file read in text mode without [newline]: a carriage return with its
    line feed, or alone, is read as a line feed. *)
Fixpoint read_newlines (s : string) : string :=
  match s with
  | EmptyString => EmptyString
  | String c rest =>
      if Ascii.eqb c CR then
        match rest with
        | String c' rest' =>
            if Ascii.eqb c' LF then String LF (read_newlines rest')
            else String LF (read_newlines rest)
        | EmptyString => String LF EmptyString
        end
      else String c (read_newlines rest)
  end.

(** A file written in text mode without [newline]: a line feed is written
    as [os.linesep]. *)
Fixpoint write_newlines (linesep s : string) : string :=
  match s with
  | EmptyString => EmptyString
  | String c rest =>
      if Ascii.eqb c LF then linesep +:+ write_newlines linesep rest
      else String c (write_newlines linesep rest)
  end.

(** ** Reference data *)

(** A key of the factor table: [row['AircraftType']] is a string, or [None]
    for a row that stops before that column. *)
Abbreviation factor_table := (gmap (option string) R).

(** The body of the loop of [load_csv_factors]: the right-hand side is
    evaluated first, and any exception leaves the table as it is. *)
Definition load_factor_row (B : builtins) (d : factor_table) (row : dictrow)
  : factor_table :=
  match row !! "EmissionFactor_kgCO2perkm" with
  | Some (Some s) =>
      match py_float B s with
      | Some x =>
          match row !! "AircraftType" with
          | Some k => <[k := x]> d
          | None => d
          end
      | None => d
      end
  | _ => d
  end.

Definition load_csv_factors (B : builtins) (path : string) (fs : filesystem)
  : res factor_table :=
  match fs !! path with
  | None => Raise FileNotFoundError
  | Some content =>
      match DictReader content with
      | None => Raise CsvError
      | Some rows => Ok (foldl (load_factor_row B) ∅ rows)
      end
  end.

Record airport := Airport {
  name : string;
  lat : R;
  lon : R;
  country : string
}.

(** ** The history ledger *)

Definition HISTORY_HEADER : list string :=
  ["timestamp"; "origin"; "destination"; "distance_km"; "aircraft"; "rf";
   "saf_pct"; "co2_kg"; "fuel_liters"; "trees"; "offset_inr"].

Definition log_history_row (row : list string) (path : string) (fs : filesystem)
  : filesystem :=
  let exists_ := path_exists fs path in
  let fs := open_append fs path in
  let fs := if exists_ then fs else write_append fs path (csv_writerow HISTORY_HEADER) in
  write_append fs path (csv_writerow row).

(** The rows of the ledger as [_refresh_history_tree] iterates over them:
    none when the file is missing. *)
Definition read_all (fs : filesystem) : res (list dictrow) :=
  match fs !! HISTORY_CSV with
  | None => Ok []
  | Some content =>
      match DictReader content with
      | Some rows => Ok rows
      | None => Raise CsvError
      end
  end.

(** A line of the history table of the window. *)
Record tree_row := TreeRow {
  t_timestamp : option string;
  t_route : string;
  t_distance : R;
  t_aircraft : option string;
  t_co2 : R
}.

Definition getitem (row : dictrow) (key : string) : res (option string) :=
  match row !! key with
  | Some v => Ok v
  | None => Raise KeyError
  end.

(** [float(v)] for a value of a row. *)
Definition float_of (B : builtins) (v : option string) : res R :=
  match v with
  | None => Raise TypeError
  | Some s =>
      match py_float B s with
      | Some x => Ok x
      | None => Raise ValueError
      end
  end.

(** [str(v)] inside an f-string. *)
Definition str_of (v : option string) : string := default "None" v.

Definition tree_values (B : builtins) (row : dictrow) : res tree_row :=
  origin ← getitem row "origin";
  destination ← getitem row "destination";
  let route := str_of origin +:+ " " +:+ ARROW +:+ " " +:+ str_of destination in
  timestamp ← getitem row "timestamp";
  distance ← getitem row "distance_km" ≫= float_of B;
  aircraft ← getitem row "aircraft";
  co2 ← getitem row "co2_kg" ≫= float_of B;
  mret (TreeRow timestamp route distance aircraft co2).

(** The loop of [_refresh_history_tree]: the rows are inserted one by one,
    and an exception leaves the table with the rows inserted before it. *)
Fixpoint insert_rows (B : builtins) (rows : list dictrow) (tree : list tree_row)
  : list tree_row * option pyexn :=
  match rows with
  | [] => (tree, None)
  | row :: rows' =>
      match tree_values B row with
      | Ok v => insert_rows B rows' (tree ++ [v])
      | Raise e => (tree, Some e)
      end
  end.

(** [history_tree] is [None] until the history page is built. *)
Definition _refresh_history_tree (B : builtins) (fs : filesystem)
    (history_tree : option (list tree_row))
  : option (list tree_row) * option pyexn :=
  match history_tree with
  | None => (None, None)
  | Some _ =>
      match read_all fs with
      | Ok rows => let '(tree, e) := insert_rows B rows [] in (Some tree, e)
      | Raise e => (Some [], Some e)
      end
  end.

(** ** The window *)

Inductive modal :=
  | AirportNotFound | InputRequired | AircraftRequired
  | NoHistory | ExportSuccessful.

(** What [calculate_action] reads from the window and from the tables
    loaded at start. *)
Record app := App {
  factors : factor_table;
  airports : gmap string airport;
  origin_var : string;
  dest_var : string;
  dist_var : string;
  ac_cb : string;
  rf_var : bool;
  saf_var : Z;
  history_tree : option (list tree_row)
}.

Definition _parse_iata_from_combo (text : string) : string :=
  if bool_decide (text = "") then ""
  else match before_sep EN_DASH text with
       | Some code => upper (strip code)
       | None => upper (strip text)
       end.

(** Lines 770-786 of [calculate_action]: the distance of the flight, or the
    modal that ends the calculation. *)
Definition flight_distance (B : builtins) (a : app) : modal + R :=
  let origin := _parse_iata_from_combo (origin_var a) in
  let dest := _parse_iata_from_combo (dest_var a) in
  let manual := strip (dist_var a) in
  if negb (String.eqb origin "") && negb (String.eqb dest "") then
    match airports a !! origin, airports a !! dest with
    | Some a0, Some b0 => inr (haversine_km (lat a0) (lon a0) (lat b0) (lon b0))
    | _, _ => inl AirportNotFound
    end
  else
    match py_float B manual with
    | Some dist => inr dist
    | None => inl InputRequired
    end.

(** The figures shown in the result cards. *)
Record result := Result {
  r_dist : R;
  r_co2 : R;
  r_fuel : R;
  r_trees : R;
  r_cost : R
}.

(** Lines 826-828: the row logged for a calculation. *)
Definition history_entry (B : builtins) (ts origin dest ac : string)
    (rf : bool) (saf_pct : Z) (r : result) : list string :=
  [ts; origin; dest; fmt_1f B (r_dist r); ac; str_bool rf; str_int saf_pct;
   fmt_1f B (r_co2 r); fmt_1f B (r_fuel r); fmt_1f B (r_trees r);
   fmt_1f B (r_cost r)].

(** How [calculate_action] ends: [Rejected m], the modal [m] is shown and
    the method returns; [Calculated r e], the cards show [r] and the entry
    is logged, [e] being what the refresh of the history table raised. *)
Inductive calc_outcome :=
  | Rejected (m : modal)
  | Calculated (r : result) (e : option pyexn).

(** [calculate_action]: [now] is [datetime.now(UTC).isoformat()]. The method
    returns its outcome, the file system and the history table. *)
Definition calculate_action (B : builtins) (now : string) (a : app)
    (fs : filesystem)
  : calc_outcome * filesystem * option (list tree_row) :=
  let origin := _parse_iata_from_combo (origin_var a) in
  let dest := _parse_iata_from_combo (dest_var a) in
  match flight_distance B a with
  | inl m => (Rejected m, fs, history_tree a)
  | inr dist =>
      let ac := ac_cb a in
      match factors a !! Some ac with
      | None => (Rejected AircraftRequired, fs, history_tree a)
      | Some base_factor =>
          let rf := rf_var a in
          let saf_pct := saf_var a in
          let co2 := apply_saf (estimate_co2 dist base_factor rf) saf_pct in
          let fuel_l := fuel_liters_from_co2 co2 in
          let trees := trees_needed co2 in
          let cost := co2 * OFFSET_COST_PER_KG in
          let r := Result dist co2 fuel_l trees cost in
          let entry := history_entry B now origin dest ac rf saf_pct r in
          let fs' := log_history_row entry HISTORY_CSV fs in
          let '(tree, e) := _refresh_history_tree B fs' (history_tree a) in
          (Calculated r e, fs', tree)
      end
  end.

(** [export_history]: [target] is the answer of the save dialog, empty when
    it is cancelled; [linesep] is [os.linesep]. The source is opened, then
    the target is opened for writing, which empties it, then the source is
    read and written. *)
Definition export_history (linesep target : string) (fs : filesystem)
  : option modal * filesystem :=
  if negb (path_exists fs HISTORY_CSV) then (Some NoHistory, fs)
  else if String.eqb target "" then (None, fs)
  else
    let fs1 := <[target := ""]> fs in
    let text := read_newlines (default "" (fs1 !! HISTORY_CSV)) in
    (Some ExportSuccessful, <[target := write_newlines linesep text]> fs1).

(** ** Decimal conversions

    An instance of the built-in conversions, used to run the engine on
    concrete inputs. [decimal_float] is [float] on the plain decimal
    numerals: an optional minus sign, digits, and optionally a point and
    digits; it refuses every other string, also those that Python reads
    (an exponent, a plus sign, spaces around, [inf], [nan]).
    [decimal_fmt_1f] is the format with one decimal of a real number: the
    nearest tenth, ties to even. *)

Definition digit_value (c : ascii) : option Z :=
  let n := N_of_ascii c in
  if ((48 <=? n) && (n <=? 57))%N then Some (Z.of_N (n - 48)) else None.

Fixpoint digits_value (acc : Z) (s : string) : option Z :=
  match s with
  | EmptyString => Some acc
  | String c s' => d ← digit_value c; digits_value (10 * acc + d)%Z s'
  end.

Definition unsigned_decimal (s : string) : option R :=
  match before_sep "." s with
  | None =>
      if String.eqb s "" then None else (fun n => IZR n) <$> digits_value 0 s
  | Some int_part =>
      let frac := String.substring (S (String.length int_part))
                    (String.length s) s in
      if String.eqb int_part "" || String.eqb frac "" then None
      else
        n ← digits_value 0 (int_part +:+ frac);
        Some (IZR n / IZR (10 ^ Z.of_nat (String.length frac)))
  end.

Definition decimal_float (s : string) : option R :=
  match s with
  | String "-" s' => Ropp <$> unsigned_decimal s'
  | _ => unsigned_decimal s
  end.

Definition round_half_even (x : R) : Z :=
  let n := (up x - 1)%Z in
  let r := x - IZR n in
  if Rlt_dec r (1 / 2) then n
  else if Rlt_dec (1 / 2) r then (n + 1)%Z
  else if Z.even n then n else (n + 1)%Z.

Definition decimal_fmt_1f (x : R) : string :=
  let q := round_half_even (Rabs x * 10) in
  (if Rlt_dec x 0 then "-" else "")
    +:+ str_int (q / 10) +:+ "." +:+ str_int (q mod 10).

Definition decimal_builtins : builtins := Builtins decimal_float decimal_fmt_1f.

(** ** Sequences of operations and sample data *)

(** The ledger after the rows of [rows] are logged one after the other. *)
Definition log_all (rows : list (list string)) (path : string) (fs : filesystem)
  : filesystem :=
  foldl (fun fs row => log_history_row row path fs) fs rows.

(** [self.dist_var.set(s)] *)
Definition set_dist_var (a : app) (s : string) : app :=
  App (factors a) (airports a) (origin_var a) (dest_var a) s (ac_cb a)
      (rf_var a) (saf_var a) (history_tree a).

(** The factor field of a row is a string that [float] accepts. *)
Definition factor_parses (B : builtins) (row : dictrow) : bool :=
  match row !! "EmissionFactor_kgCO2perkm" with
  | Some (Some s) => bool_decide (is_Some (py_float B s))
  | _ => false
  end.

(** A window with one aircraft and two airports. *)
Definition sample_factors : factor_table := {[ Some "A320" := 115 / 1000 ]}.
Definition sample_airports : gmap string airport :=
  {[ "DEL" := Airport "Indira Gandhi" (2856 / 100) (771 / 10) "India";
     "BOM" := Airport "Chhatrapati Shivaji" (1909 / 100) (7287 / 100) "India" ]}.
Definition sample_app (origin dest manual ac : string) (rf : bool) (saf : Z) : app :=
  App sample_factors sample_airports origin dest manual ac rf saf None.
Definition sample_now : string := "2026-01-01T00:00:00+00:00".
Definition sample_entry : list string :=
  [sample_now; "DEL"; "BOM"; "1148.0"; "A320"; "False"; "0";
   "182.0"; "72.0"; "8.3"; "109.2"].


(** The line of the history table for a logged row of eleven fields, when
    [float] reads its distance and its CO2 figure. *)
Definition entry_view (B : builtins) (row : list string) : option tree_row :=
  match row with
  | [ts; origin; dest; dist; ac; _; _; co2; _; _; _] =>
      x ← py_float B dist;
      y ← py_float B co2;
      Some (TreeRow (Some ts) (origin +:+ " " +:+ ARROW +:+ " " +:+ dest)
              x (Some ac) y)
  | _ => None
  end.

(** The string has a carriage return; the string has no line break. *)
Fixpoint has_cr (s : string) : bool :=
  match s with
  | String c s' => Ascii.eqb c CR || has_cr s'
  | EmptyString => false
  end.

Fixpoint no_newline (s : string) : bool :=
  match s with
  | String c s' => negb (is_newline c) && no_newline s'
  | EmptyString => true
  end.

(** ** Proof automation *)

(** Replaces the module constants by their values. *)
Ltac unfold_consts :=
  unfold RF_MULTIPLIER, OFFSET_COST_PER_KG, SAF_MAX_REDUCTION_PERCENT,
    CO2_TO_FUEL_FACTOR, FUEL_DENSITY_KG_LITER, SHORT_HAUL_MAX_KM,
    SHORT_HAUL_LTO_CO2_FIXED_KG, LONG_HAUL_LTO_CO2_FIXED_KG in *.

(** ** More of the program

    The functions of [greenskies_final.py] around the ones above:
    [load_airports] and the labels of the airport combo boxes, the
    suggestion of [calculate_action], [compare_action], [reset_home] and
    the route of [load_selected_history]. *)

(** *** Text *)

(** Every character of [s] is a space character. *)
Fixpoint all_space (s : string) : bool :=
  match s with
  | String c s' => is_space c && all_space s'
  | EmptyString => true
  end.

(** [str.rstrip()] by recursion on the string: the characters are kept up
    to the last one that is no space. *)
Fixpoint rstrip_rec (s : string) : string :=
  match s with
  | String c s' => if is_space c && all_space s' then "" else String c (rstrip_rec s')
  | EmptyString => EmptyString
  end.

(** Every byte of [s] is an ASCII character. *)
Fixpoint is_ascii (s : string) : bool :=
  match s with
  | String c s' => (N_of_ascii c <? 128)%N && is_ascii s'
  | EmptyString => true
  end.

(** [sep in s] *)
Definition contains (sep s : string) : bool :=
  bool_decide (is_Some (before_sep sep s)).

(** The part of [s] after the first occurrence of [sep], when there is one. *)
Fixpoint after_sep (sep s : string) : option string :=
  if String.prefix sep s
  then Some (String.substring (String.length sep) (String.length s) s)
  else match s with
       | String _ s' => after_sep sep s'
       | EmptyString => None
       end.

(** *** [load_airports] *)

(** A value of the airport table: [row.get('Name', '')] is the field, the
    empty string when the file has no such column, or [None] when the row
    stops before it. *)
Record airport_entry := AirportEntry {
  e_name : option string;
  e_lat : R;
  e_lon : R;
  e_country : option string
}.

Abbreviation airport_table := (gmap string airport_entry).

(** What [load_airports] raises: the file is missing, or, from
    [row['IATA'].strip()], which no [try] covers, the file has no [IATA]
    column ([KeyError]) or a row stops before it ([AttributeError]). *)
Inductive airports_error :=
  | AirportsFileNotFound | AirportsCsvError
  | AirportsKeyError | AirportsAttributeError.

(** [row.get(key, '')] *)
Definition row_get (row : dictrow) (key : string) : option string :=
  default (Some "") (row !! key).

(** The [try] of the loop: the two coordinates, or [None] for [continue]. *)
Definition row_coordinates (B : builtins) (row : dictrow) : option (R * R) :=
  match row !! "Latitude" with
  | Some (Some s1) =>
      lat ← py_float B s1;
      match row !! "Longitude" with
      | Some (Some s2) => lon ← py_float B s2; Some (lat, lon)
      | _ => None
      end
  | _ => None
  end.

(** The body of the loop of [load_airports]. *)
Definition load_airport_row (B : builtins) (out : airport_table) (row : dictrow)
  : airports_error + airport_table :=
  match row !! "IATA" with
  | None => inl AirportsKeyError
  | Some None => inl AirportsAttributeError
  | Some (Some code) =>
      let iata := upper (strip code) in
      match row_coordinates B row with
      | None => inr out
      | Some (lat, lon) =>
          inr (<[iata := AirportEntry (row_get row "Name") lat lon
                           (row_get row "Country")]> out)
      end
  end.

Fixpoint load_airport_rows (B : builtins) (out : airport_table)
    (rows : list dictrow) : airports_error + airport_table :=
  match rows with
  | [] => inr out
  | row :: rows' =>
      match load_airport_row B out row with
      | inl e => inl e
      | inr out' => load_airport_rows B out' rows'
      end
  end.

Definition load_airports (B : builtins) (path : string) (fs : filesystem)
  : airports_error + airport_table :=
  match fs !! path with
  | None => inl AirportsFileNotFound
  | Some content =>
      match DictReader content with
      | None => inl AirportsCsvError
      | Some rows => load_airport_rows B ∅ rows
      end
  end.

(** An element of [airport_options], line 242: the label of the airport
    [k] in the two combo boxes. *)
Definition airport_label (k : string) (v : airport_entry) : string :=
  k +:+ " " +:+ EN_DASH +:+ " " +:+ str_of (e_name v) +:+ ", "
    +:+ str_of (e_country v).

(** The row has its code and coordinates that [float] reads. *)
Definition airport_row_loads (B : builtins) (row : dictrow) : bool :=
  bool_decide (is_Some (row_coordinates B row)).

(** An airport file with a code to normalise, a row whose latitude is not
    a number and a second row for the first code. *)
Definition sample_airport_file : string :=
  "IATA,Name,Latitude,Longitude,Country" +:+ CRLF
  +:+ " del ,Palam,28.5,77.1,India" +:+ CRLF
  +:+ "XXX,Nowhere,n/a,0,Nowhere" +:+ CRLF
  +:+ "DEL,Indira Gandhi,28.56,77.1,India" +:+ CRLF.

(** A factor file with two rows for one aircraft. *)
Definition sample_duplicate_factors : string :=
  "AircraftType,EmissionFactor_kgCO2perkm" +:+ CRLF
  +:+ "A320,0.115" +:+ CRLF
  +:+ "B777,0.3" +:+ CRLF
  +:+ "A320,0.2" +:+ CRLF.

(** The table of [sample_airport_file]: the last row for a code wins. *)
Definition sample_airport_entry : airport_entry :=
  AirportEntry (Some "Indira Gandhi") (2856 / 100) (771 / 10) (Some "India").
Definition sample_airport_table : airport_table :=
  {[ "DEL" := sample_airport_entry ]}.

(** *** The suggestion of [calculate_action], lines 816-821 *)

Inductive suggestion := ShortRoute | MediumHaul | LongHaul.

Definition suggestion_for (dist : R) : suggestion :=
  if Rlt_dec dist 350 then ShortRoute
  else if Rlt_dec dist 1500 then MediumHaul
  else LongHaul.

(** *** [compare_action] *)

(** Lines 855-870: the distance of the comparison, [None] for the modal
    that asks for an input. [float(self.dist_var.get() or 0)] is 0 for an
    empty field. *)
Definition compare_distance (B : builtins) (a : app) : option R :=
  let origin := _parse_iata_from_combo (origin_var a) in
  let dest := _parse_iata_from_combo (dest_var a) in
  match (if negb (String.eqb origin "") && negb (String.eqb dest "")
         then airports a !! origin else None),
        airports a !! dest with
  | Some a0, Some b0 =>
      Some (haversine_km (lat a0) (lon a0) (lat b0) (lon b0))
  | _, _ =>
      if String.eqb (dist_var a) "" then Some 0 else py_float B (dist_var a)
  end.

(** How [compare_action] ends: a modal, or the chart of a distance with a
    bar for every aircraft of the factor table (the order of the bars is
    left out). *)
Inductive compare_outcome :=
  | CompareInputRequired
  | CompareNoMatplotlib
  | CompareChart (dist : R) (bars : factor_table).

(** [plot_ok] is the module flag [PLOT_OK]. *)
Definition compare_action (B : builtins) (plot_ok : bool) (a : app)
  : compare_outcome :=
  match compare_distance B a with
  | None => CompareInputRequired
  | Some dist =>
      let rf := rf_var a in
      let saf_pct := saf_var a in
      let bars :=
        (fun v => apply_saf (estimate_co2 dist v rf) saf_pct) <$> factors a in
      if plot_ok then CompareChart dist bars else CompareNoMatplotlib
  end.

(** *** [reset_home] *)

(** [first_ac] is the first value of the aircraft combo box, which
    [self.ac_cb.current(0)] selects. *)
Definition reset_home (first_ac : string) (a : app) : app :=
  App (factors a) (airports a) "" "" ""
      (if bool_decide (factors a = ∅) then ac_cb a else first_ac)
      false 0 (history_tree a).

(** *** [load_selected_history] *)

Definition ROUTE_SEP : string := " " +:+ ARROW +:+ " ".

(** Lines 951-954: [origin, dest = route.split(' → ')], both empty when
    the route does not split in two. *)
Definition split_route (route : string) : string * string :=
  match before_sep ROUTE_SEP route, after_sep ROUTE_SEP route with
  | Some origin, Some rest =>
      if contains ROUTE_SEP rest then ("", "") else (origin, rest)
  | _, _ => ("", "")
  end.

(** *** Lines of a file *)

(** The line that [csv_writerow] writes for a row, without its terminator. *)
Definition csv_line (row : list string) : string :=
  match row with
  | [EmptyString] => quoted ""
  | _ => csv_join row
  end.

(** No later row that loads is a row of the aircraft [k]. *)
Definition no_later_row (B : builtins) (k : option string)
    (rows : list dictrow) : Prop :=
  Forall (fun row => factor_parses B row = true ->
                     row !! "AircraftType" <> Some k) rows.

(** ** The variables of the form and who writes them

    The variables that [calculate_action] reads are created at lines
    423-428 and written by the widgets bound to them (lines 436-506), by
    [reset_home] and by [load_selected_history]; [calculate_action],
    [compare_action] and [export_history] write none of them. *)








(** ** The answer of the save dialog

    [filedialog.asksaveasfilename] answers with an absolute path, and with
    the empty string when the dialog is cancelled, and the program names
    its ledger by a path relative to the working directory: two paths can
    name one file. A key of a [filesystem] stands for a file, and
    [file_of] is the resolution of a path by the system, the key of the
    file that the path names: [HISTORY_CSV] for every path that names the
    ledger. *)
Definition export_history_to (file_of : string -> string)
    (linesep answer : string) (fs : filesystem) : option modal * filesystem :=
  if negb (path_exists fs HISTORY_CSV) then (Some NoHistory, fs)
  else if String.eqb answer "" then (None, fs)
  else
    let target := file_of answer in
    let fs1 := <[target := ""]> fs in
    let text := read_newlines (default "" (fs1 !! HISTORY_CSV)) in
    (Some ExportSuccessful, <[target := write_newlines linesep text]> fs1).

(** A resolution for the examples: the working directory is [/home/user]. *)
Definition sample_file_of (path : string) : string :=
  if String.eqb path "/home/user/history.csv" then HISTORY_CSV else path.

(** ** The estimator in binary64

    The numbers of the program are Python floats, IEEE 754 binary64 with
    rounding to the nearest, ties to even. The definitions above take
    them for real numbers; [Binary64] has the estimator and the SAF step
    with the operations of binary64 themselves, as the primitive floats
    of the kernel compute them, for what rounding changes. *)

Module Binary64.
Import PrimFloat.
#[local] Set Warnings "-inexact-float".
Local Open Scope float_scope.

Definition RF_MULTIPLIER : float := 1.9.
Definition SAF_MAX_REDUCTION_PERCENT : float := 0.80.
Definition SHORT_HAUL_MAX_KM : float := 1500.
Definition SHORT_HAUL_LTO_CO2_FIXED_KG : float := 50.0.
Definition LONG_HAUL_LTO_CO2_FIXED_KG : float := 150.0.

(** [float(n)] for a Python int of at most 53 bits, where it is exact;
    larger ints are left out. *)
Definition float_of_int (n : Z) : option float :=
  if (Z.abs n <=? 2 ^ 53)%Z
  then Some (if (n <? 0)%Z then - of_uint63 (Uint63.of_Z (- n))
             else of_uint63 (Uint63.of_Z n))
  else None.

(** [a / b] for two Python ints of at most 53 bits, [b] not 0: the
    quotient of the two floats. The other divisions are left out: of
    larger ints, where Python rounds the exact quotient or raises
    [OverflowError], and by 0. *)
Definition true_div (a b : Z) : option float :=
  if (b =? 0)%Z then None
  else x ← float_of_int a; y ← float_of_int b; Some (x / y).

Definition estimate_co2 (distance_km base_factor : float) (rf : bool) : float :=
  let fixed :=
    if distance_km <=? SHORT_HAUL_MAX_KM
    then SHORT_HAUL_LTO_CO2_FIXED_KG else LONG_HAUL_LTO_CO2_FIXED_KG in
  let total := distance_km * base_factor + fixed in
  if rf then total * RF_MULTIPLIER else total.

(** Lines 800-802 of [calculate_action]. *)
Definition apply_saf (co2 : float) (saf_pct : Z) : option float :=
  if (0 <? saf_pct)%Z then
    q ← true_div saf_pct 100;
    let reduction := q * SAF_MAX_REDUCTION_PERCENT in
    Some (co2 * (1 - reduction))
  else Some co2.

(** Lines 798-802: the CO2 figure of a calculation. *)
Definition co2_of (dist base_factor : float) (rf : bool) (saf_pct : Z)
  : option float :=
  apply_saf (estimate_co2 dist base_factor rf) saf_pct.

End Binary64.
(** ** Properties of the estimator *)

Lemma estimate_co2_short d f rf :
  d <= 1500 ->
  estimate_co2 d f rf = if rf then (d * f + 50) * (19 / 10) else d * f + 50.
Proof.
  intros Hd. unfold estimate_co2. unfold_consts.
  destruct (Rle_dec d 1500) as [_|Hn]; [reflexivity | contradiction].
Qed.

Lemma estimate_co2_long d f rf :
  1500 < d ->
  estimate_co2 d f rf = if rf then (d * f + 150) * (19 / 10) else d * f + 150.
Proof.
  intros Hd. unfold estimate_co2. unfold_consts.
  destruct (Rle_dec d 1500) as [Hle|_]; [lra | reflexivity].
Qed.


Lemma apply_saf_factor co2 saf :
  (0 <= saf)%Z -> apply_saf co2 saf = co2 * (1 - IZR saf / 100 * (80 / 100)).
Proof.
  intros Hs. unfold apply_saf. unfold_consts.
  destruct (Z.ltb_spec 0 saf) as [Hlt|Hge]; [reflexivity|].
  assert (saf = 0%Z) as -> by lia. lra.
Qed.


(** C1. For every distance and every positive base factor, the estimate is
    [distance * factor] plus the LTO surcharge, 50 kg up to and including
    1500 km and 150 kg above; with radiative forcing the sum, surcharge
    included, is multiplied by 1.9. *)
Theorem estimate_co2_spec (d f : R) :
  0 < f ->
  (d <= 1500 ->
     estimate_co2 d f false = d * f + 50 /\
     estimate_co2 d f true = (d * f + 50) * (19 / 10)) /\
  (1500 < d ->
     estimate_co2 d f false = d * f + 150 /\
     estimate_co2 d f true = (d * f + 150) * (19 / 10)) /\
  estimate_co2 d f true = estimate_co2 d f false * (19 / 10).
Proof.
  intros _. split; [|split].
  - intros Hd. split; rewrite estimate_co2_short by assumption; reflexivity.
  - intros Hd. split; rewrite estimate_co2_long by assumption; reflexivity.
  - reflexivity.
Qed.

Lemma estimate_co2_spec_witness :
  0 < 115 / 1000 /\
  estimate_co2 1500 (115 / 1000) false = 1500 * (115 / 1000) + 50 /\
  estimate_co2 1500 (115 / 1000) true = (1500 * (115 / 1000) + 50) * (19 / 10).
Proof.
  split; [lra|].
  apply (proj1 (estimate_co2_spec 1500 (115 / 1000) ltac:(lra))). lra.
Defined.

(** The boundary of the surcharge and the scenarios of the specification. *)
Example estimate_co2_boundary :
  estimate_co2 1500 (115 / 1000) false = 1500 * (115 / 1000) + 50 /\
  estimate_co2 (1500001 / 1000) (115 / 1000) false
    = 1500001 / 1000 * (115 / 1000) + 150.
Proof.
  split; [apply estimate_co2_short | apply estimate_co2_long]; lra.
Qed.

Example scenario_1000_km :
  co2_of 1000 (115 / 1000) false 0 = 165 /\
  co2_of 1000 (115 / 1000) true 0 = 3135 / 10 /\
  co2_of 1000 (115 / 1000) true 50 = 1881 / 10 /\
  6526 / 100 < fuel_liters_from_co2 165 < 6528 / 100 /\
  trees_needed 165 = 75 / 10 /\
  165 * OFFSET_COST_PER_KG = 99.
Proof.
  unfold co2_of, trees_needed, fuel_liters_from_co2.
  rewrite !apply_saf_factor by lia.
  rewrite !estimate_co2_short by lra. unfold_consts. repeat split; lra.
Qed.

(** *** Great-circle distance *)

Lemma haversine_a_sym lat1 lon1 lat2 lon2 :
  haversine_a lat1 lon1 lat2 lon2 = haversine_a lat2 lon2 lat1 lon1.
Proof.
  unfold haversine_a, radians.
  replace ((lat1 - lat2) * (PI / 180) / 2)
    with (- ((lat2 - lat1) * (PI / 180) / 2)) by lra.
  replace ((lon1 - lon2) * (PI / 180) / 2)
    with (- ((lon2 - lon1) * (PI / 180) / 2)) by lra.
  rewrite !sin_neg, <- !Rsqr_neg. ring.
Qed.

Lemma haversine_a_same lat lon : haversine_a lat lon lat lon = 0.
Proof.
  unfold haversine_a, radians.
  replace ((lat - lat) * (PI / 180) / 2) with 0 by lra.
  replace ((lon - lon) * (PI / 180) / 2) with 0 by lra.
  rewrite sin_0. unfold Rsqr. ring.
Qed.

(** [math.sqrt] raises on a negative argument; over the reals both
    arguments of the two square roots are in [[0, 1]], so [haversine_km]
    is total. *)
Lemma haversine_a_bounds lat1 lon1 lat2 lon2 :
  0 <= haversine_a lat1 lon1 lat2 lon2 <= 1.
Proof.
  unfold haversine_a.
  set (p1 := radians lat1). set (p2 := radians lat2).
  assert (Hd : radians (lat2 - lat1) / 2 = (p2 - p1) / 2)
    by (unfold p1, p2, radians; lra).
  rewrite Hd. clear Hd.
  set (h := (sin (radians (lon2 - lon1) / 2))²).
  assert (Hh : 0 <= h <= 1).
  { unfold h. split; [apply Rle_0_sqr|].
    pose proof (sin2_cos2 (radians (lon2 - lon1) / 2)) as E.
    pose proof (Rle_0_sqr (cos (radians (lon2 - lon1) / 2))). lra. }
  assert (Hs : (sin ((p2 - p1) / 2))² = (1 - cos (p2 - p1)) / 2).
  { replace (p2 - p1) with (2 * ((p2 - p1) / 2)) at 2 by lra.
    rewrite cos_2a_sin. unfold Rsqr. lra. }
  rewrite Hs, cos_minus.
  pose proof (sin2_cos2 p1) as E1. pose proof (sin2_cos2 p2) as E2.
  unfold Rsqr in E1, E2.
  generalize dependent h. intros h Hh.
  set (s1 := sin p1) in *. set (s2 := sin p2) in *.
  set (c1 := cos p1) in *. set (c2 := cos p2) in *.
  pose proof (Rle_0_sqr (c1 - c2)) as Q1. pose proof (Rle_0_sqr (c1 + c2)) as Q2.
  pose proof (Rle_0_sqr (s1 - s2)) as Q3. pose proof (Rle_0_sqr (s1 + s2)) as Q4.
  unfold Rsqr in Q1, Q2, Q3, Q4.
  assert (Hss : - 1 <= c1 * c2 + s1 * s2 <= 1) by (split; lra).
  assert (Hcc : - 1 <= c1 * c2 - s1 * s2 <= 1) by (split; lra).
  set (P := c1 * c2 + s1 * s2) in *. set (Q := c1 * c2 - s1 * s2) in *.
  replace (c1 * c2 * h) with ((P + Q) / 2 * h) by (unfold P, Q; lra).
  assert (0 <= (1 - P) * (1 - h)) by (apply Rmult_le_pos; lra).
  assert (0 <= (1 + P) * (1 - h)) by (apply Rmult_le_pos; lra).
  assert (0 <= (1 - Q) * h) by (apply Rmult_le_pos; lra).
  assert (0 <= (1 + Q) * h) by (apply Rmult_le_pos; lra).
  replace (c2 * c1 + s2 * s1) with P by (unfold P; ring).
  clearbody P Q. split; nra.
Qed.

(** C5. The great-circle distance does not change when the two endpoints
    are swapped, and it is 0 from a point to itself. *)
Theorem haversine_km_sym_refl (lat1 lon1 lat2 lon2 : R) :
  haversine_km lat1 lon1 lat2 lon2 = haversine_km lat2 lon2 lat1 lon1 /\
  haversine_km lat1 lon1 lat1 lon1 = 0.
Proof.
  split.
  - unfold haversine_km. rewrite (haversine_a_sym lat1 lon1). reflexivity.
  - unfold haversine_km. rewrite haversine_a_same.
    rewrite Rminus_0_r, sqrt_0, sqrt_1. unfold atan2.
    destruct (Rlt_dec 0 1) as [_|Hn]; [|lra].
    replace (0 / 1) with 0 by lra. rewrite atan_0. ring.
Qed.




(** In exact arithmetic a blend of 100 percent gives 0.2 times the figure
    of the blend of 0 percent. *)
Lemma saf_full_exact (d f : R) (rf : bool) :
  co2_of d f rf 0 = estimate_co2 d f rf /\
  co2_of d f rf 100 = 2 / 10 * co2_of d f rf 0.
Proof.
  unfold co2_of. split; [reflexivity|].
  rewrite !apply_saf_factor by lia. lra.
Qed.

(** ** The reader reads back what the writer wrote *)

Lemma append_cons c s t : String c s +:+ t = String c (s +:+ t).
Proof. reflexivity. Qed.

Lemma append_nil_l t : "" +:+ t = t.
Proof. reflexivity. Qed.

Lemma append_nil_r s : s +:+ "" = s.
Proof. induction s as [|c s IH]; [reflexivity|]. rewrite append_cons, IH. reflexivity. Qed.

Lemma append_assoc s t u : (s +:+ t) +:+ u = s +:+ t +:+ u.
Proof.
  induction s as [|c s IH]; [reflexivity|].
  rewrite !append_cons, IH. reflexivity.
Qed.

Lemma append_snoc s c t : (s +:+ String c "") +:+ t = s +:+ String c t.
Proof. rewrite append_assoc. reflexivity. Qed.

Lemma is_special_false c :
  is_special c = false ->
  Ascii.eqb c COMMA = false /\ Ascii.eqb c DQUOTE = false /\
  Ascii.eqb c CR = false /\ Ascii.eqb c LF = false.
Proof.
  unfold is_special. intros H.
  repeat (apply orb_false_elim in H as [H ?]). auto.
Qed.

Lemma line_ends_plain c rest :
  Ascii.eqb c LF = false -> Ascii.eqb c CR = false -> rest <> "" ->
  line_ends c rest = false.
Proof.
  intros H1 H2 Hr. unfold line_ends. rewrite H1, H2. simpl.
  apply String.eqb_neq. assumption.
Qed.

Lemma parse_lines_cons r c rest :
  parse_lines r (String c rest) =
    (r1 ← parse_process_char r (Ch c);
     if line_ends c rest then
       r2 ← parse_process_char r1 EOL;
       if bool_decide (state r2 = START_RECORD)
       then cons (fields r2) <$> parse_lines parse_reset rest
       else parse_lines r2 rest
     else parse_lines r1 rest).
Proof. reflexivity. Qed.

Section Steps.
Variables (buf : string) (fl : list string).

Lemma step_field_char c :
  is_special c = false ->
  parse_process_char (Reader IN_FIELD buf fl) (Ch c)
  = Some (Reader IN_FIELD (buf +:+ String c "") fl).
Proof.
  intros Hc. destruct (is_special_false c Hc) as (Hcomma & _ & Hcr & Hlf).
  unfold parse_process_char, is_newline. cbn [state].
  rewrite Hlf, Hcr, Hcomma. reflexivity.
Qed.

Lemma step_quoted_char c :
  Ascii.eqb c DQUOTE = false ->
  parse_process_char (Reader IN_QUOTED_FIELD buf fl) (Ch c)
  = Some (Reader IN_QUOTED_FIELD (buf +:+ String c "") fl).
Proof. intros Hc. unfold parse_process_char. cbn [state]. rewrite Hc. reflexivity. Qed.

Lemma step_quoted_quote :
  parse_process_char (Reader IN_QUOTED_FIELD buf fl) (Ch DQUOTE)
  = Some (Reader QUOTE_IN_QUOTED_FIELD buf fl).
Proof. reflexivity. Qed.

Lemma step_quoted_eol :
  parse_process_char (Reader IN_QUOTED_FIELD buf fl) EOL
  = Some (Reader IN_QUOTED_FIELD buf fl).
Proof. reflexivity. Qed.

Lemma step_doubled_quote :
  parse_process_char (Reader QUOTE_IN_QUOTED_FIELD buf fl) (Ch DQUOTE)
  = Some (Reader IN_QUOTED_FIELD (buf +:+ String DQUOTE "") fl).
Proof. reflexivity. Qed.

Lemma step_comma st :
  st = START_RECORD \/ st = START_FIELD \/ st = IN_FIELD
    \/ st = QUOTE_IN_QUOTED_FIELD ->
  parse_process_char (Reader st buf fl) (Ch COMMA)
  = Some (Reader START_FIELD "" (fl ++ [buf])).
Proof. intros [->|[->|[->| ->]]]; reflexivity. Qed.

Lemma step_open_quote st :
  st = START_RECORD \/ st = START_FIELD ->
  parse_process_char (Reader st buf fl) (Ch DQUOTE)
  = Some (Reader IN_QUOTED_FIELD buf fl).
Proof. intros [->| ->]; reflexivity. Qed.

Lemma step_first_char st c :
  st = START_RECORD \/ st = START_FIELD -> is_special c = false ->
  parse_process_char (Reader st buf fl) (Ch c)
  = Some (Reader IN_FIELD (buf +:+ String c "") fl).
Proof.
  intros Hst Hc. destruct (is_special_false c Hc) as (Hcomma & Hq & Hcr & Hlf).
  destruct Hst as [->| ->]; unfold parse_process_char, is_newline;
    cbn [state]; rewrite Hlf, Hcr, Hq, Hcomma; reflexivity.
Qed.

Lemma step_cr st :
  st = START_FIELD \/ st = IN_FIELD \/ st = QUOTE_IN_QUOTED_FIELD ->
  parse_process_char (Reader st buf fl) (Ch CR)
  = Some (Reader EAT_CRNL "" (fl ++ [buf])).
Proof. intros [->|[->| ->]]; reflexivity. Qed.
End Steps.

Lemma nonempty_append s rest : rest <> "" -> s +:+ rest <> "".
Proof. intros Hr. destruct s; [exact Hr | discriminate]. Qed.

(** An unquoted field is read character by character. *)
Lemma parse_unquoted s : forall buf fl rest,
  has_special s = false -> rest <> "" ->
  parse_lines (Reader IN_FIELD buf fl) (s +:+ rest)
  = parse_lines (Reader IN_FIELD (buf +:+ s) fl) rest.
Proof.
  induction s as [|c s IH]; intros buf fl rest Hs Hr.
  - rewrite append_nil_l, append_nil_r. reflexivity.
  - cbn [has_special] in Hs. apply orb_false_elim in Hs as [Hc Hs].
    destruct (is_special_false c Hc) as (_ & _ & Hcr & Hlf).
    rewrite append_cons, parse_lines_cons, step_field_char by assumption.
    cbn [mbind option_bind].
    rewrite line_ends_plain by auto using nonempty_append.
    rewrite IH by assumption. rewrite append_snoc. reflexivity.
Qed.

(** Inside the quotes every character is kept, a doubled quote is read as
    one quote, and the ends of the lines are not seen. *)
Lemma parse_quoted_body s : forall buf fl rest,
  parse_lines (Reader IN_QUOTED_FIELD buf fl)
    (double_quotes s +:+ String DQUOTE rest)
  = parse_lines (Reader IN_QUOTED_FIELD (buf +:+ s) fl) (String DQUOTE rest).
Proof.
  induction s as [|c s IH]; intros buf fl rest.
  - rewrite append_nil_r. reflexivity.
  - cbn [double_quotes]. destruct (Ascii.eqb c DQUOTE) eqn:Hq.
    + apply Ascii.eqb_eq in Hq. subst c.
      rewrite !append_cons, parse_lines_cons, step_quoted_quote.
      cbn [mbind option_bind].
      rewrite line_ends_plain by (reflexivity || discriminate).
      rewrite parse_lines_cons, step_doubled_quote.
      cbn [mbind option_bind].
      rewrite line_ends_plain
        by (try reflexivity; apply nonempty_append; discriminate).
      rewrite IH, append_snoc. reflexivity.
    + rewrite append_cons, parse_lines_cons, step_quoted_char by assumption.
      cbn [mbind option_bind].
      assert (Hgo : parse_lines (Reader IN_QUOTED_FIELD (buf +:+ String c "") fl)
                      (double_quotes s +:+ String DQUOTE rest)
                    = parse_lines (Reader IN_QUOTED_FIELD (buf +:+ String c s) fl)
                        (String DQUOTE rest))
        by (rewrite IH, append_snoc; reflexivity).
      destruct (line_ends c _); [|exact Hgo].
      rewrite step_quoted_eol. cbn [mbind option_bind state].
      rewrite bool_decide_eq_false_2 by discriminate. exact Hgo.
Qed.

Lemma parse_closing_quote buf fl rest :
  rest <> "" ->
  parse_lines (Reader IN_QUOTED_FIELD buf fl) (String DQUOTE rest)
  = parse_lines (Reader QUOTE_IN_QUOTED_FIELD buf fl) rest.
Proof.
  intros Hr. rewrite parse_lines_cons, step_quoted_quote.
  cbn [mbind option_bind].
  rewrite line_ends_plain by (reflexivity || assumption). reflexivity.
Qed.

Lemma parse_quoted st s fl rest :
  field_start st -> rest <> "" ->
  parse_lines (Reader st "" fl) (quoted s +:+ rest)
  = parse_lines (Reader QUOTE_IN_QUOTED_FIELD s fl) rest.
Proof.
  intros Hst Hr. unfold quoted.
  rewrite append_cons, append_assoc, append_cons, append_nil_l.
  rewrite parse_lines_cons, step_open_quote by assumption.
  cbn [mbind option_bind].
  rewrite line_ends_plain
    by (try reflexivity; apply nonempty_append; discriminate).
  rewrite parse_quoted_body, append_nil_l.
  apply parse_closing_quote. assumption.
Qed.

Lemma parse_plain st s fl rest :
  field_start st -> has_special s = false -> s <> "" -> rest <> "" ->
  parse_lines (Reader st "" fl) (s +:+ rest)
  = parse_lines (Reader IN_FIELD s fl) rest.
Proof.
  intros Hst Hs Hne Hr. destruct s as [|c s]; [congruence|].
  cbn [has_special] in Hs. apply orb_false_elim in Hs as [Hc Hs].
  destruct (is_special_false c Hc) as (_ & _ & Hcr & Hlf).
  rewrite append_cons, parse_lines_cons, step_first_char by assumption.
  cbn [mbind option_bind].
  rewrite line_ends_plain by auto using nonempty_append.
  rewrite append_nil_l, parse_unquoted by assumption. reflexivity.
Qed.

(** A field followed by the delimiter. *)
Lemma parse_field_comma st s fl rest :
  field_start st -> rest <> "" ->
  parse_lines (Reader st "" fl) (csv_field s +:+ String COMMA rest)
  = parse_lines (Reader START_FIELD "" (fl ++ [s])) rest.
Proof.
  intros Hst Hr. unfold csv_field.
  destruct (has_special s) eqn:Hs.
  - rewrite parse_quoted by (assumption || discriminate).
    rewrite parse_lines_cons, step_comma by auto.
    cbn [mbind option_bind].
    rewrite line_ends_plain by (reflexivity || assumption). reflexivity.
  - destruct (decide (s = "")) as [->|Hne].
    + rewrite append_nil_l, parse_lines_cons, step_comma
        by (destruct Hst; auto).
      cbn [mbind option_bind].
      rewrite line_ends_plain by (reflexivity || assumption). reflexivity.
    + rewrite parse_plain by (assumption || discriminate).
      rewrite parse_lines_cons, step_comma by auto.
      cbn [mbind option_bind].
      rewrite line_ends_plain by (reflexivity || assumption). reflexivity.
Qed.

(** The line terminator after a field closes the record. *)
Lemma parse_crlf st buf fl rest :
  st = START_FIELD \/ st = IN_FIELD \/ st = QUOTE_IN_QUOTED_FIELD ->
  parse_lines (Reader st buf fl) (CRLF +:+ rest)
  = cons (fl ++ [buf]) <$> parse_lines parse_reset rest.
Proof.
  intros Hst. unfold CRLF. rewrite !append_cons, append_nil_l.
  rewrite parse_lines_cons, step_cr by assumption.
  cbn [mbind option_bind].
  replace (line_ends CR (String LF rest)) with false by reflexivity.
  rewrite parse_lines_cons. reflexivity.
Qed.

Lemma parse_empty_record rest :
  parse_lines parse_reset (CRLF +:+ rest)
  = cons [] <$> parse_lines parse_reset rest.
Proof. reflexivity. Qed.

(** The last field of a record, with the line terminator. *)
Lemma parse_field_crlf st s fl rest :
  field_start st -> (st = START_RECORD -> s <> "") ->
  parse_lines (Reader st "" fl) (csv_field s +:+ CRLF +:+ rest)
  = cons (fl ++ [s]) <$> parse_lines parse_reset rest.
Proof.
  intros Hst Hne. unfold csv_field.
  destruct (has_special s) eqn:Hs.
  - rewrite parse_quoted by (assumption || discriminate).
    apply parse_crlf. auto.
  - destruct (decide (s = "")) as [->|Hs'].
    + rewrite append_nil_l. apply parse_crlf.
      destruct Hst as [->| ->]; [exfalso; exact (Hne eq_refl eq_refl) | auto].
    + rewrite parse_plain by (assumption || discriminate).
      apply parse_crlf. auto.
Qed.

Lemma parse_join fs : forall f st fl rest,
  field_start st -> (st = START_RECORD -> f :: fs <> [""]) ->
  parse_lines (Reader st "" fl) (csv_join (f :: fs) +:+ CRLF +:+ rest)
  = cons (fl ++ f :: fs) <$> parse_lines parse_reset rest.
Proof.
  induction fs as [|g fs IH]; intros f st fl rest Hst Hne.
  - cbn [csv_join]. apply parse_field_crlf; [assumption|].
    intros E ->. apply (Hne E). reflexivity.
  - change (csv_join (f :: g :: fs))
      with (csv_field f +:+ String COMMA (csv_join (g :: fs))).
    rewrite append_assoc, append_cons.
    rewrite parse_field_comma; [|assumption|].
    + rewrite IH; [|right; reflexivity|discriminate].
      rewrite <- app_assoc. reflexivity.
    + destruct (csv_join (g :: fs)); discriminate.
Qed.

(** One row written by [csv_writerow] is one record for the reader, the
    same row. *)
Lemma parse_writerow row rest :
  parse_lines parse_reset (csv_writerow row +:+ rest)
  = cons row <$> parse_lines parse_reset rest.
Proof.
  destruct row as [|f fs].
  - cbn [csv_writerow csv_join]. rewrite append_nil_l. apply parse_empty_record.
  - destruct (decide (f :: fs = [""])) as [E|Hne].
    + injection E as -> ->. cbn [csv_writerow].
      rewrite append_assoc. unfold parse_reset at 1.
      rewrite parse_quoted by (try (left; reflexivity); discriminate).
      apply parse_crlf. auto.
    + assert (Hw : csv_writerow (f :: fs) = csv_join (f :: fs) +:+ CRLF).
      { destruct f as [|c f]; [destruct fs; [congruence|]|]; reflexivity. }
      rewrite Hw, append_assoc.
      apply (parse_join fs f START_RECORD []); [left; reflexivity | auto].
Qed.

Lemma csv_text_snoc rows row :
  csv_text (rows ++ [row]) = csv_text rows +:+ csv_writerow row.
Proof.
  induction rows as [|r rows IH].
  - cbn [csv_text foldr List.app]. rewrite append_nil_r. reflexivity.
  - change (csv_text ((r :: rows) ++ [row]))
      with (csv_writerow r +:+ csv_text (rows ++ [row])).
    change (csv_text (r :: rows)) with (csv_writerow r +:+ csv_text rows).
    rewrite IH, append_assoc. reflexivity.
Qed.

Theorem csv_reader_writer rows : csv_reader (csv_text rows) = Some rows.
Proof.
  unfold csv_reader.
  induction rows as [|row rows IH]; [reflexivity|].
  change (csv_text (row :: rows)) with (csv_writerow row +:+ csv_text rows).
  rewrite parse_writerow, IH. reflexivity.
Qed.

(** *** The reader does not raise

    The error of the automaton needs a character other than a line break
    after a line break inside one line; the lines of a file opened with
    [newline=''] have their only line break at their end. *)

Lemma process_char_total r c :
  (state r = EAT_CRNL -> is_newline c = true) ->
  exists r1, parse_process_char r (Ch c) = Some r1 /\
             (state r1 = EAT_CRNL -> is_newline c = true).
Proof.
  intros Hinv. destruct r as [st b fl]. unfold parse_process_char.
  destruct st; cbn [state] in *;
    try rewrite (Hinv eq_refl);
    destruct (is_newline c), (Ascii.eqb c DQUOTE), (Ascii.eqb c COMMA);
    eexists; (split; [reflexivity|]); cbn [state parse_save_field parse_add_char];
    congruence.
Qed.

Lemma process_eol_total r :
  exists r2, parse_process_char r EOL = Some r2 /\ state r2 <> EAT_CRNL.
Proof.
  destruct r as [st b fl]. destruct st; eexists; (split; [reflexivity|]);
    cbn [state parse_save_field]; discriminate.
Qed.

Lemma parse_lines_total s : forall r,
  (state r = EAT_CRNL -> starts_with LF s = true) ->
  is_Some (parse_lines r s).
Proof.
  induction s as [|c rest IH]; intros r Hinv.
  - cbn [parse_lines]. destruct (_ || _); eauto.
  - rewrite parse_lines_cons.
    destruct (process_char_total r c) as (r1 & -> & H1).
    { intros E. specialize (Hinv E). cbn [starts_with] in Hinv.
      unfold is_newline. rewrite Hinv. reflexivity. }
    cbn [mbind option_bind].
    destruct (line_ends c rest) eqn:Hle.
    + destruct (process_eol_total r1) as (r2 & -> & H2).
      cbn [mbind option_bind]. case_bool_decide.
      * destruct (IH parse_reset) as [recs ->]; [discriminate|]. eauto.
      * apply IH. intros E. contradiction.
    + apply IH. intros E. specialize (H1 E).
      unfold line_ends in Hle. unfold is_newline in H1.
      destruct (Ascii.eqb c LF); [discriminate|].
      destruct (Ascii.eqb c CR); [|discriminate].
      destruct (starts_with LF rest); [reflexivity | discriminate].
Qed.

Theorem csv_reader_total content : is_Some (csv_reader content).
Proof. apply parse_lines_total. discriminate. Qed.

(** ** The history ledger *)

Lemma log_history_row_new row path (fs : filesystem) :
  fs !! path = None ->
  log_history_row row path fs
  = <[path := csv_text [HISTORY_HEADER; row]]> fs.
Proof.
  intros Hnone. unfold log_history_row, path_exists, open_append, write_append.
  rewrite Hnone. rewrite bool_decide_eq_false_2 by (intros [? ?]; discriminate).
  rewrite !lookup_insert_eq. cbn [default].
  rewrite !insert_insert_eq, append_nil_l.
  unfold csv_text. cbn [foldr]. rewrite append_nil_r. reflexivity.
Qed.

Lemma log_history_row_old row path (fs : filesystem) content :
  fs !! path = Some content ->
  log_history_row row path fs = <[path := content +:+ csv_writerow row]> fs.
Proof.
  intros Hsome. unfold log_history_row, path_exists, open_append, write_append.
  rewrite Hsome. rewrite bool_decide_eq_true_2 by eauto.
  rewrite Hsome. reflexivity.
Qed.

Lemma log_history_row_other row path path' (fs : filesystem) :
  path' <> path -> log_history_row row path fs !! path' = fs !! path'.
Proof.
  intros Hne. destruct (fs !! path) as [content|] eqn:E.
  - rewrite (log_history_row_old _ _ _ content E).
    apply lookup_insert_ne. congruence.
  - rewrite (log_history_row_new _ _ _ E). apply lookup_insert_ne. congruence.
Qed.

Lemma log_all_old rows : forall path (fs : filesystem) recs,
  fs !! path = Some (csv_text recs) ->
  log_all rows path fs !! path = Some (csv_text (recs ++ rows)).
Proof.
  induction rows as [|row rows IH]; intros path fs recs Hfs.
  - rewrite app_nil_r. exact Hfs.
  - cbn [log_all foldl]. fold (log_all rows path (log_history_row row path fs)).
    rewrite (IH _ _ (recs ++ [row])).
    + rewrite <- app_assoc. reflexivity.
    + rewrite (log_history_row_old _ _ _ _ Hfs), lookup_insert_eq, csv_text_snoc.
      reflexivity.
Qed.

(** Starting without a file, the file holds the header and then the rows,
    each written once, in the order of the calls. *)
Lemma log_all_new row rows path (fs : filesystem) :
  fs !! path = None ->
  log_all (row :: rows) path fs !! path
  = Some (csv_text (HISTORY_HEADER :: row :: rows)).
Proof.
  intros Hnone. cbn [log_all foldl].
  fold (log_all rows path (log_history_row row path fs)).
  apply (log_all_old rows path _ [HISTORY_HEADER; row]).
  rewrite (log_history_row_new _ _ _ Hnone). apply lookup_insert_eq.
Qed.

Lemma filter_nonempty_rows (rows : list (list string)) :
  Forall (fun row => row <> []) rows ->
  filter (fun row => row <> []) rows = rows.
Proof.
  induction 1 as [|row rows Hrow _ IH]; [reflexivity|].
  rewrite filter_cons_True by assumption. rewrite IH. reflexivity.
Qed.

(** Reading after logging, when the ledger did not exist before. *)
Lemma read_all_log_all (rows : list (list string)) (fs : filesystem) :
  fs !! HISTORY_CSV = None ->
  Forall (fun row => row <> []) rows ->
  read_all (log_all rows HISTORY_CSV fs)
  = Ok (dict_of_row HISTORY_HEADER <$> rows).
Proof.
  intros Hnone Hrows. destruct rows as [|row rows].
  - cbn [log_all foldl fmap list_fmap]. unfold read_all. rewrite Hnone. reflexivity.
  - unfold read_all, DictReader.
    rewrite (log_all_new row rows HISTORY_CSV fs Hnone), csv_reader_writer.
    cbn [fmap option_fmap option_map dict_rows].
    rewrite filter_nonempty_rows by assumption. reflexivity.
Qed.

(** Reading the ledger raises nothing, whatever the file holds. *)
Lemma read_all_ok (fs : filesystem) : exists rows, read_all fs = Ok rows.
Proof.
  unfold read_all, DictReader. destruct (fs !! HISTORY_CSV) as [content|]; eauto.
  destruct (csv_reader_total content) as [recs ->]. eauto.
Qed.

(** *** The history table *)

Lemma tree_values_entry B row v :
  entry_view B row = Some v ->
  tree_values B (dict_of_row HISTORY_HEADER row) = Ok v.
Proof.
  destruct row as [|ts [|o [|d [|dist [|ac [|rf [|saf [|co2 [|fuel
    [|trees [|cost [|]]]]]]]]]]]]; try discriminate.
  cbn [entry_view]. intros Hv.
  destruct (py_float B dist) as [x|] eqn:Hx; [|discriminate].
  destruct (py_float B co2) as [y|] eqn:Hy; [|discriminate].
  cbn [mbind option_bind] in Hv. injection Hv as <-.
  unfold tree_values, getitem.
  replace (dict_of_row HISTORY_HEADER _ !! "origin") with (Some (Some o))
    by reflexivity.
  replace (dict_of_row HISTORY_HEADER _ !! "destination") with (Some (Some d))
    by reflexivity.
  replace (dict_of_row HISTORY_HEADER _ !! "timestamp") with (Some (Some ts))
    by reflexivity.
  replace (dict_of_row HISTORY_HEADER _ !! "distance_km") with (Some (Some dist))
    by reflexivity.
  replace (dict_of_row HISTORY_HEADER _ !! "aircraft") with (Some (Some ac))
    by reflexivity.
  replace (dict_of_row HISTORY_HEADER _ !! "co2_kg") with (Some (Some co2))
    by reflexivity.
  cbn [mbind res_bind float_of]. rewrite Hx, Hy. reflexivity.
Qed.

Lemma insert_rows_entries B rows : forall views tree,
  mapM (entry_view B) rows = Some views ->
  insert_rows B (dict_of_row HISTORY_HEADER <$> rows) tree
  = (tree ++ views, None).
Proof.
  induction rows as [|row rows IH]; intros views tree Hviews.
  - injection Hviews as <-. rewrite app_nil_r. reflexivity.
  - cbn [mapM] in Hviews.
    destruct (entry_view B row) as [v|] eqn:Hv; [|discriminate].
    destruct (mapM (entry_view B) rows) as [vs|] eqn:Hvs; [|discriminate].
    cbn [mbind option_bind mret option_ret fmap option_fmap option_map] in Hviews.
    injection Hviews as <-.
    cbn [fmap list_fmap insert_rows].
    rewrite (tree_values_entry B row v Hv).
    change (list_fmap _ _ (dict_of_row HISTORY_HEADER) rows)
      with (dict_of_row HISTORY_HEADER <$> rows).
    rewrite (IH vs) by reflexivity. rewrite <- app_assoc. reflexivity.
Qed.

Lemma entry_view_nonempty B rows : forall views,
  mapM (entry_view B) rows = Some views ->
  Forall (fun row => row <> []) rows /\ length views = length rows.
Proof.
  induction rows as [|row rows IH]; intros views Hviews.
  - injection Hviews as <-. split; [constructor | reflexivity].
  - cbn [mapM] in Hviews.
    destruct (entry_view B row) as [v|] eqn:Hv; [|discriminate].
    destruct (mapM (entry_view B) rows) as [vs|]; [|discriminate].
    cbn [mbind option_bind mret option_ret fmap option_fmap option_map] in Hviews.
    injection Hviews as <-.
    destruct (IH vs eq_refl) as [Hne Hlen]. split.
    + constructor; [|exact Hne]. intros ->. discriminate.
    + cbn [length]. rewrite Hlen. reflexivity.
Qed.

(** After the logging of [rows] in a ledger that did not exist, the refresh
    shows one line per row, in the order of the logging, whatever the table
    showed before. *)
Lemma refresh_after_log_all B (rows : list (list string)) views
    (fs : filesystem) old :
  fs !! HISTORY_CSV = None ->
  mapM (entry_view B) rows = Some views ->
  _refresh_history_tree B (log_all rows HISTORY_CSV fs) (Some old)
  = (Some views, None).
Proof.
  intros Hnone Hviews. unfold _refresh_history_tree.
  rewrite read_all_log_all
    by (try assumption; apply (entry_view_nonempty B rows views Hviews)).
  rewrite (insert_rows_entries B rows views []) by assumption. reflexivity.
Qed.

Example refresh_sample_entries :
  exists views,
    _refresh_history_tree decimal_builtins
      (log_all [sample_entry; sample_entry] HISTORY_CSV ∅) (Some [])
    = (Some views, None) /\
    length views = 2%nat /\
    t_route <$> views = ["DEL " +:+ ARROW +:+ " BOM"; "DEL " +:+ ARROW +:+ " BOM"].
Proof.
  eexists. split.
  - apply refresh_after_log_all; reflexivity.
  - split; reflexivity.
Qed.

(** C8. Appending N entries to a ledger that does not exist yet and reading
    it returns these N entries in the order of the appends, as rows of the
    reader and as lines of the history table; the file exists once an entry
    is appended and not before, and reading a ledger that does not exist
    returns no entry and no error. *)
Theorem ledger_round_trip (B : builtins) (rows : list (list string))
    (views : list tree_row) (fs : filesystem) (old : list tree_row) :
  fs !! HISTORY_CSV = None ->
  mapM (entry_view B) rows = Some views ->
  (read_all fs = Ok [] /\
   _refresh_history_tree B fs (Some old) = (Some [], None)) /\
  (read_all (log_all rows HISTORY_CSV fs)
     = Ok (dict_of_row HISTORY_HEADER <$> rows) /\
   _refresh_history_tree B (log_all rows HISTORY_CSV fs) (Some old)
     = (Some views, None) /\
   length views = length rows) /\
  (rows <> [] ->
     csv_reader <$> log_all rows HISTORY_CSV fs !! HISTORY_CSV
     = Some (Some (HISTORY_HEADER :: rows))) /\
  (log_all rows HISTORY_CSV fs !! HISTORY_CSV = None <-> rows = []).
Proof.
  intros Hnone Hviews.
  destruct (entry_view_nonempty B rows views Hviews) as [Hrows Hlen].
  assert (Hempty : read_all fs = Ok [])
    by (unfold read_all; rewrite Hnone; reflexivity).
  split; [split; [exact Hempty|]|split; [|split]].
  - unfold _refresh_history_tree. rewrite Hempty. reflexivity.
  - split; [apply read_all_log_all; assumption|].
    split; [apply refresh_after_log_all; assumption | exact Hlen].
  - destruct rows as [|row rows]; [congruence|]. intros _.
    rewrite (log_all_new row rows HISTORY_CSV fs Hnone).
    cbn [fmap option_fmap option_map]. rewrite csv_reader_writer. reflexivity.
  - destruct rows as [|row rows].
    + split; [reflexivity | intros _; exact Hnone].
    + rewrite (log_all_new row rows HISTORY_CSV fs Hnone).
      split; discriminate.
Qed.

Lemma ledger_round_trip_witness :
  exists views,
    read_all (log_all [sample_entry; sample_entry] HISTORY_CSV ∅)
    = Ok (dict_of_row HISTORY_HEADER <$> [sample_entry; sample_entry]) /\
    _refresh_history_tree decimal_builtins
      (log_all [sample_entry; sample_entry] HISTORY_CSV ∅) (Some [])
    = (Some views, None) /\
    length views = 2%nat.
Proof.
  eexists.
  apply (ledger_round_trip decimal_builtins [sample_entry; sample_entry] _ ∅ []).
  - reflexivity.
  - reflexivity.
Defined.

(** ** The calculation *)

Lemma calculate_action_no_distance B now a fs m :
  flight_distance B a = inl m ->
  calculate_action B now a fs = (Rejected m, fs, history_tree a).
Proof. intros H. unfold calculate_action. rewrite H. reflexivity. Qed.

Lemma calculate_action_no_aircraft B now a fs dist :
  flight_distance B a = inr dist ->
  factors a !! Some (ac_cb a) = None ->
  calculate_action B now a fs = (Rejected AircraftRequired, fs, history_tree a).
Proof. intros H1 H2. unfold calculate_action. rewrite H1, H2. reflexivity. Qed.

(** Once the distance and the aircraft are found nothing stops the
    calculation: the figures are computed and the entry is logged. *)
Lemma calculate_action_calculated B now a fs dist f :
  flight_distance B a = inr dist ->
  factors a !! Some (ac_cb a) = Some f ->
  exists r e t,
    calculate_action B now a fs
    = (Calculated r e,
       log_history_row
         (history_entry B now (_parse_iata_from_combo (origin_var a))
            (_parse_iata_from_combo (dest_var a)) (ac_cb a) (rf_var a)
            (saf_var a) r)
         HISTORY_CSV fs,
       t) /\
    r_dist r = dist /\
    r_co2 r = co2_of dist f (rf_var a) (saf_var a) /\
    r_fuel r = fuel_liters_from_co2 (r_co2 r) /\
    r_trees r = trees_needed (r_co2 r) /\
    r_cost r = r_co2 r * OFFSET_COST_PER_KG.
Proof.
  intros H1 H2. unfold calculate_action. rewrite H1, H2.
  destruct (_refresh_history_tree _ _ _) as [t e].
  eexists _, e, t. repeat split.
Qed.

Lemma flight_distance_airports B a :
  _parse_iata_from_combo (origin_var a) <> "" ->
  _parse_iata_from_combo (dest_var a) <> "" ->
  flight_distance B a =
    match airports a !! _parse_iata_from_combo (origin_var a),
          airports a !! _parse_iata_from_combo (dest_var a) with
    | Some a0, Some b0 => inr (haversine_km (lat a0) (lon a0) (lat b0) (lon b0))
    | _, _ => inl AirportNotFound
    end.
Proof.
  intros Ho Hd. unfold flight_distance.
  apply String.eqb_neq in Ho, Hd. rewrite Ho, Hd. reflexivity.
Qed.

Lemma flight_distance_manual B a :
  _parse_iata_from_combo (origin_var a) = "" \/
  _parse_iata_from_combo (dest_var a) = "" ->
  flight_distance B a =
    match py_float B (strip (dist_var a)) with
    | Some dist => inr dist
    | None => inl InputRequired
    end.
Proof.
  intros H. unfold flight_distance.
  destruct H as [H|H]; apply String.eqb_eq in H; rewrite H;
    rewrite ?andb_false_r; reflexivity.
Qed.


(** The decimal instance on the numerals of the examples below; [float]
    reads the first four as these numbers and refuses the last two. *)
Example decimal_float_samples :
  decimal_float "1000" = Some 1000 /\
  decimal_float "-5" = Some (- 5) /\
  decimal_float "-1.5" = Some (- (15 / 10)) /\
  decimal_float "0" = Some 0 /\
  decimal_float "n/a" = None /\
  decimal_float "" = None.
Proof. repeat split; reflexivity. Qed.

Lemma sample_manual_distance manual ac rf saf d :
  decimal_float manual = Some d -> strip manual = manual ->
  flight_distance decimal_builtins (sample_app "" "" manual ac rf saf) = inr d.
Proof.
  intros Hd Hs. rewrite flight_distance_manual by (left; reflexivity).
  cbn [dist_var sample_app py_float decimal_builtins]. rewrite Hs, Hd. reflexivity.
Qed.

Lemma sample_factor_A320 : sample_factors !! Some "A320" = Some (115 / 1000).
Proof. apply lookup_singleton_eq. Qed.

(** *** The blend that the slider delivers *)










(** C3, as the specification has it, fails: a distance of -5 km is not
    rejected, and the ledger, which did not exist, has one entry after the
    calculation. *)
Lemma negative_distance_is_logged :
  exists r e fs' t row,
    calculate_action decimal_builtins sample_now
      (sample_app "" "" "-5" "A320" false 0) ∅
    = (Calculated r e, fs', t) /\
    r_dist r = - 5 /\
    read_all ∅ = Ok [] /\
    read_all fs' = Ok [row].
Proof.
  destruct (calculate_action_calculated decimal_builtins sample_now
              (sample_app "" "" "-5" "A320" false 0) ∅ (- 5) (115 / 1000))
    as (r & e & t & Hcalc & Hdist & _).
  - apply sample_manual_distance; reflexivity.
  - apply sample_factor_A320.
  - eexists r, e, _, t, _. split; [exact Hcalc|]. split; [exact Hdist|].
    split; [reflexivity|].
    match goal with |- read_all (log_history_row ?row _ _) = _ =>
      apply (read_all_log_all [row] ∅)
    end; [reflexivity | repeat constructor; discriminate].
Qed.

(** C3, amended. A calculation that fails one of the checks of the code (an
    airport code that is not in the airport table when both codes are
    given, a manual distance that is not a number when a code is missing,
    an aircraft that is not in the factor table) ends with its modal, and
    the ledger and the history table are left as they were. *)
Theorem rejected_calculation_keeps_ledger
    (B : builtins) (now : string) (a : app) (fs : filesystem) :
  (_parse_iata_from_combo (origin_var a) <> "" /\
   _parse_iata_from_combo (dest_var a) <> "" /\
   (airports a !! _parse_iata_from_combo (origin_var a) = None \/
    airports a !! _parse_iata_from_combo (dest_var a) = None)) \/
  ((_parse_iata_from_combo (origin_var a) = "" \/
    _parse_iata_from_combo (dest_var a) = "") /\
   py_float B (strip (dist_var a)) = None) \/
  factors a !! Some (ac_cb a) = None ->
  exists m, calculate_action B now a fs = (Rejected m, fs, history_tree a).
Proof.
  intros [(Ho & Hd & Hmiss) | [(Hempty & Hfloat) | Hac]].
  - exists AirportNotFound. apply calculate_action_no_distance.
    rewrite flight_distance_airports by assumption.
    destruct Hmiss as [-> | ->]; [reflexivity|].
    destruct (airports a !! _); reflexivity.
  - exists InputRequired. apply calculate_action_no_distance.
    rewrite flight_distance_manual, Hfloat by assumption. reflexivity.
  - destruct (flight_distance B a) as [m|dist] eqn:Hdist.
    + exists m. apply calculate_action_no_distance. assumption.
    + exists AircraftRequired.
      apply (calculate_action_no_aircraft B now a fs dist); assumption.
Qed.

Lemma rejected_calculation_keeps_ledger_witness :
  exists m,
    calculate_action decimal_builtins sample_now
      (sample_app "" "" "1000" "Concorde" false 0)
      (log_history_row sample_entry HISTORY_CSV ∅)
    = (Rejected m, log_history_row sample_entry HISTORY_CSV ∅, None).
Proof.
  apply (rejected_calculation_keeps_ledger decimal_builtins sample_now
           (sample_app "" "" "1000" "Concorde" false 0)).
  right. right. reflexivity.
Defined.

(** C10. With both codes given and both in the airport table, the
    calculation is made for the great-circle distance between the two
    airports, whatever the manual field holds: the result, its CO2 figure
    and the entry logged are those of this distance. With both codes given
    and one of them unknown, the manual field is not consulted either.
    With a code missing, the distance is the number in the manual field,
    and without a number there the calculation ends with its modal. *)
Theorem airports_before_manual_distance
    (B : builtins) (now : string) (a : app) (fs : filesystem) (f : R) :
  factors a !! Some (ac_cb a) = Some f ->
  (_parse_iata_from_combo (origin_var a) <> "" ->
   _parse_iata_from_combo (dest_var a) <> "" ->
   (forall a0 b0,
      airports a !! _parse_iata_from_combo (origin_var a) = Some a0 ->
      airports a !! _parse_iata_from_combo (dest_var a) = Some b0 ->
      forall manual, exists r e t,
        calculate_action B now (set_dist_var a manual) fs
        = (Calculated r e,
           log_history_row
             (history_entry B now (_parse_iata_from_combo (origin_var a))
                (_parse_iata_from_combo (dest_var a)) (ac_cb a) (rf_var a)
                (saf_var a) r)
             HISTORY_CSV fs,
           t) /\
        r_dist r = haversine_km (lat a0) (lon a0) (lat b0) (lon b0) /\
        r_co2 r = co2_of (haversine_km (lat a0) (lon a0) (lat b0) (lon b0))
                    f (rf_var a) (saf_var a)) /\
   (airports a !! _parse_iata_from_combo (origin_var a) = None \/
    airports a !! _parse_iata_from_combo (dest_var a) = None ->
    forall manual,
      calculate_action B now (set_dist_var a manual) fs
      = (Rejected AirportNotFound, fs, history_tree a))) /\
  (_parse_iata_from_combo (origin_var a) = "" \/
   _parse_iata_from_combo (dest_var a) = "" ->
   (forall dist,
      py_float B (strip (dist_var a)) = Some dist ->
      exists r e fs' t,
        calculate_action B now a fs = (Calculated r e, fs', t) /\
        r_dist r = dist /\
        r_co2 r = co2_of dist f (rf_var a) (saf_var a)) /\
   (py_float B (strip (dist_var a)) = None ->
    calculate_action B now a fs = (Rejected InputRequired, fs, history_tree a))).
Proof.
  intros Hf. split.
  - intros Ho Hd. split.
    + intros a0 b0 Ha Hb manual.
      destruct (calculate_action_calculated B now (set_dist_var a manual) fs
                  (haversine_km (lat a0) (lon a0) (lat b0) (lon b0)) f)
        as (r & e & t & Hcalc & Hdist & Hco2 & _).
      * rewrite flight_distance_airports by assumption.
        cbn [set_dist_var airports origin_var dest_var].
        rewrite Ha, Hb. reflexivity.
      * exact Hf.
      * exists r, e, t. split; [exact Hcalc|]. split; [exact Hdist | exact Hco2].
    + intros Hmiss manual.
      apply (calculate_action_no_distance B now (set_dist_var a manual)).
      rewrite flight_distance_airports by assumption.
      cbn [set_dist_var airports origin_var dest_var].
      destruct Hmiss as [-> | ->]; [reflexivity|].
      destruct (airports a !! _); reflexivity.
  - intros Hempty. split.
    + intros dist Hdist.
      destruct (calculate_action_calculated B now a fs dist f)
        as (r & e & t & Hcalc & Hr & Hco2 & _).
      * rewrite flight_distance_manual, Hdist by assumption. reflexivity.
      * exact Hf.
      * eexists r, e, _, t. split; [exact Hcalc|]. split; [exact Hr | exact Hco2].
    + intros Hnone. apply calculate_action_no_distance.
      rewrite flight_distance_manual, Hnone by assumption. reflexivity.
Qed.

Lemma sample_codes :
  _parse_iata_from_combo ("del " +:+ EN_DASH +:+ " Indira Gandhi, India") = "DEL" /\
  _parse_iata_from_combo " bom" = "BOM".
Proof. split; reflexivity. Qed.

Lemma airports_before_manual_distance_witness :
  (forall manual, exists r e t,
     calculate_action decimal_builtins sample_now
       (set_dist_var
          (sample_app ("del " +:+ EN_DASH +:+ " Indira Gandhi, India") " bom"
             "12" "A320" false 0) manual)
       ∅
     = (Calculated r e,
        log_history_row
          (history_entry decimal_builtins sample_now "DEL" "BOM" "A320" false 0 r)
          HISTORY_CSV ∅,
        t) /\
     r_dist r = haversine_km (2856 / 100) (771 / 10) (1909 / 100) (7287 / 100) /\
     r_co2 r = co2_of (haversine_km (2856 / 100) (771 / 10) (1909 / 100)
                         (7287 / 100))
                 (115 / 1000) false 0) /\
  (exists r e fs' t,
     calculate_action decimal_builtins sample_now
       (sample_app "DEL" "" "1000" "A320" false 0) ∅
     = (Calculated r e, fs', t) /\
     r_dist r = 1000 /\
     r_co2 r = co2_of 1000 (115 / 1000) false 0).
Proof.
  split.
  - apply (proj1 (proj1 (airports_before_manual_distance decimal_builtins
                           sample_now
                           (sample_app
                              ("del " +:+ EN_DASH +:+ " Indira Gandhi, India")
                              " bom" "12" "A320" false 0)
                           ∅ (115 / 1000) sample_factor_A320)
                    ltac:(discriminate) ltac:(discriminate))
             (Airport "Indira Gandhi" (2856 / 100) (771 / 10) "India")
             (Airport "Chhatrapati Shivaji" (1909 / 100) (7287 / 100) "India"));
      reflexivity.
  - apply (proj1 (proj2 (airports_before_manual_distance decimal_builtins
                           sample_now
                           (sample_app "DEL" "" "1000" "A320" false 0)
                           ∅ (115 / 1000) sample_factor_A320)
                    ltac:(right; reflexivity))).
    reflexivity.
Defined.

(** Without both codes the distance is the manual one. *)
Example manual_distance_used :
  flight_distance decimal_builtins (sample_app "DEL" "" "1000" "A320" false 0)
  = inr 1000.
Proof.
  rewrite flight_distance_manual by (right; reflexivity). reflexivity.
Qed.

(** ** Loading the emission factors *)

Section LoadFactors.
Variable B : builtins.

Lemma load_factor_row_skip d row :
  factor_parses B row = false -> load_factor_row B d row = d.
Proof.
  unfold factor_parses, load_factor_row. intros H.
  destruct (row !! "EmissionFactor_kgCO2perkm") as [[s|]|]; try reflexivity.
  destruct (py_float B s); [|reflexivity].
  rewrite bool_decide_eq_true_2 in H by eauto. discriminate.
Qed.

(** The rows that do not parse leave no trace in the table. *)
Lemma load_rows_filter rows : forall d,
  foldl (load_factor_row B) d rows
  = foldl (load_factor_row B) d
      (filter (fun row => factor_parses B row = true) rows).
Proof.
  induction rows as [|row rows IH]; intros d; [reflexivity|].
  cbn [foldl]. destruct (factor_parses B row) eqn:Hp.
  - rewrite filter_cons_True by assumption. cbn [foldl]. apply IH.
  - rewrite filter_cons_False by (rewrite Hp; discriminate).
    rewrite load_factor_row_skip by assumption. apply IH.
Qed.


Lemma load_factor_row_insert d row s x k :
  row !! "EmissionFactor_kgCO2perkm" = Some (Some s) ->
  py_float B s = Some x ->
  row !! "AircraftType" = Some k ->
  load_factor_row B d row = <[k := x]> d.
Proof. intros Hs Hx Hk. unfold load_factor_row. rewrite Hs, Hx, Hk. reflexivity. Qed.

(** A later row that does not load, or that loads another aircraft, leaves
    the factor of [k] as it is. *)
Lemma load_rows_keep (k : option string) (x : R) (rows : list dictrow) :
  forall (d : factor_table),
  d !! k = Some x -> no_later_row B k rows ->
  foldl (load_factor_row B) d rows !! k = Some x.
Proof.
  induction rows as [|row rows IH]; intros d Hd Hlater; [exact Hd|].
  inversion Hlater as [|? ? Hrow Hrest]; subst.
  cbn [foldl]. apply IH; [|exact Hrest].
  destruct (factor_parses B row) eqn:Hp.
  - unfold load_factor_row.
    destruct (row !! "EmissionFactor_kgCO2perkm") as [[s|]|]; try exact Hd.
    destruct (py_float B s); [|exact Hd].
    destruct (row !! "AircraftType") as [k'|] eqn:Hk'; [|exact Hd].
    rewrite lookup_insert_ne; [exact Hd|].
    intros ->. apply (Hrow eq_refl). reflexivity.
  - rewrite load_factor_row_skip by assumption. exact Hd.
Qed.

Lemma load_rows_last (before : list dictrow) (row : dictrow)
    (after : list dictrow) (k : option string) (s : string) (x : R)
    (d : factor_table) :
  row !! "AircraftType" = Some k ->
  row !! "EmissionFactor_kgCO2perkm" = Some (Some s) ->
  py_float B s = Some x ->
  no_later_row B k after ->
  foldl (load_factor_row B) d (before ++ row :: after) !! k = Some x.
Proof.
  intros Hk Hs Hx Hlater. rewrite foldl_app. cbn [foldl].
  apply load_rows_keep; [|exact Hlater].
  rewrite (load_factor_row_insert _ row s x k Hs Hx Hk).
  apply lookup_insert_eq.
Qed.



End LoadFactors.






(** A missing file is the [FileNotFoundError] of the load. *)
Lemma load_csv_factors_missing B path (fs : filesystem) :
  fs !! path = None -> load_csv_factors B path fs = Raise FileNotFoundError.
Proof. intros H. unfold load_csv_factors. rewrite H. reflexivity. Qed.

(** ** The export *)

Lemma export_history_no_history linesep target (fs : filesystem) :
  fs !! HISTORY_CSV = None ->
  export_history linesep target fs = (Some NoHistory, fs).
Proof.
  intros H. unfold export_history, path_exists.
  rewrite bool_decide_eq_false_2; [reflexivity|].
  rewrite H. intros [? ?]. discriminate.
Qed.

Lemma export_history_cancelled linesep (fs : filesystem) content :
  fs !! HISTORY_CSV = Some content ->
  export_history linesep "" fs = (None, fs).
Proof.
  intros H. unfold export_history, path_exists.
  rewrite bool_decide_eq_true_2 by (rewrite H; eauto). reflexivity.
Qed.

(** The file written is the ledger after the two newline translations of
    the text mode. *)
Lemma export_history_copy linesep target (fs : filesystem) content :
  fs !! HISTORY_CSV = Some content ->
  target <> "" -> target <> HISTORY_CSV ->
  export_history linesep target fs
  = (Some ExportSuccessful,
     <[target := write_newlines linesep (read_newlines content)]> fs).
Proof.
  intros H Hne Hother. unfold export_history, path_exists.
  rewrite bool_decide_eq_true_2 by (rewrite H; eauto). cbn [negb].
  apply String.eqb_neq in Hne. rewrite Hne.
  rewrite lookup_insert_ne, H by assumption. cbn [default].
  rewrite insert_insert_eq. reflexivity.
Qed.

(** C9 at its failing input: where [os.linesep] is a line feed, the export
    of a ledger with one entry is not the ledger byte for byte, each of its
    two line terminators has lost its carriage return. *)
Theorem export_history_posix_not_verbatim :
  exists src dst,
    log_history_row sample_entry HISTORY_CSV ∅ !! HISTORY_CSV = Some src /\
    (export_history (String LF "") "export.csv"
       (log_history_row sample_entry HISTORY_CSV ∅)).2 !! "export.csv"
    = Some dst /\
    src = csv_text [HISTORY_HEADER; sample_entry] /\
    String.length src = (String.length dst + 2)%nat /\
    src <> dst.
Proof.
  assert (Hsrc : log_history_row sample_entry HISTORY_CSV ∅ !! HISTORY_CSV
                 = Some (csv_text [HISTORY_HEADER; sample_entry])).
  { rewrite log_history_row_new by apply lookup_empty. apply lookup_insert_eq. }
  eexists _, _. split; [exact Hsrc|].
  split; [|split; [reflexivity|]].
  - rewrite (export_history_copy _ _ _ _ Hsrc) by discriminate.
    apply lookup_insert_eq.
  - split; [reflexivity|]. intros E.
    apply (f_equal String.length) in E. vm_compute in E. discriminate.
Qed.

(** Where [os.linesep] is a carriage return and a line feed, the same export
    gives the bytes of the ledger back. *)
Example export_history_crlf_sample :
  exists src,
    log_history_row sample_entry HISTORY_CSV ∅ !! HISTORY_CSV = Some src /\
    (export_history CRLF "export.csv"
       (log_history_row sample_entry HISTORY_CSV ∅)).2 !! "export.csv"
    = Some src.
Proof.
  assert (Hsrc : log_history_row sample_entry HISTORY_CSV ∅ !! HISTORY_CSV
                 = Some (csv_text [HISTORY_HEADER; sample_entry])).
  { rewrite log_history_row_new by apply lookup_empty. apply lookup_insert_eq. }
  eexists. split; [exact Hsrc|].
  rewrite (export_history_copy _ _ _ _ Hsrc) by discriminate.
  cbn [snd]. rewrite lookup_insert_eq. reflexivity.
Qed.

(** An export onto the ledger itself empties it: the target is opened for
    writing before the source is read. *)
Example export_history_onto_ledger linesep (fs : filesystem) content :
  fs !! HISTORY_CSV = Some content ->
  export_history linesep HISTORY_CSV fs
  = (Some ExportSuccessful, <[HISTORY_CSV := ""]> fs).
Proof.
  intros H. unfold export_history, path_exists.
  rewrite bool_decide_eq_true_2 by (rewrite H; eauto).
  cbn [negb]. replace (String.eqb HISTORY_CSV "") with false by reflexivity.
  rewrite lookup_insert_eq. cbn [default read_newlines write_newlines].
  rewrite insert_insert_eq. reflexivity.
Qed.

(** *** The two newline translations *)

Lemma read_newlines_no_cr s : has_cr (read_newlines s) = false.
Proof.
  induction s as [|c s IH]; [reflexivity|].
  cbn [read_newlines]. destruct (Ascii.eqb c CR) eqn:Hc.
  - destruct s as [|c' s']; [reflexivity|].
    destruct (Ascii.eqb c' LF) eqn:Hc'; [|exact IH].
    apply Ascii.eqb_eq in Hc'. subst c'.
    change (read_newlines (String LF s'))
      with (String LF (read_newlines s')) in IH.
    exact IH.
  - cbn [has_cr]. rewrite Hc. exact IH.
Qed.

Lemma write_newlines_lf s : write_newlines (String LF "") s = s.
Proof.
  induction s as [|c s IH]; [reflexivity|].
  cbn [write_newlines]. rewrite IH.
  destruct (Ascii.eqb c LF) eqn:Hc; [|reflexivity].
  apply Ascii.eqb_eq in Hc. subst c. reflexivity.
Qed.

Lemma has_cr_append s t : has_cr (s +:+ t) = has_cr s || has_cr t.
Proof.
  induction s as [|c s IH]; [reflexivity|].
  rewrite append_cons. cbn [has_cr]. rewrite IH. apply orb_assoc.
Qed.

Lemma has_cr_writerow row : has_cr (csv_writerow row) = true.
Proof.
  assert (H : forall s, has_cr (s +:+ CRLF) = true)
    by (intros s; rewrite has_cr_append; apply orb_true_r).
  unfold csv_writerow. destruct row as [|[|c f] [|g fs]]; apply H.
Qed.

(** Where [os.linesep] is a line feed, the export of a ledger that the
    program has written is never the ledger byte for byte: the ledger has
    carriage returns and the export has none. *)
Theorem export_history_lf_drops_cr row target (fs : filesystem) :
  target <> "" -> target <> HISTORY_CSV ->
  exists src dst,
    log_history_row row HISTORY_CSV fs !! HISTORY_CSV = Some src /\
    (export_history (String LF "") target
       (log_history_row row HISTORY_CSV fs)).2 !! target = Some dst /\
    has_cr src = true /\ has_cr dst = false.
Proof.
  intros Hne Hother.
  assert (Hsrc : exists src,
            log_history_row row HISTORY_CSV fs !! HISTORY_CSV = Some src /\
            has_cr src = true).
  { destruct (fs !! HISTORY_CSV) as [content|] eqn:E.
    - rewrite (log_history_row_old _ _ _ _ E), lookup_insert_eq.
      eexists. split; [reflexivity|].
      rewrite has_cr_append, has_cr_writerow. apply orb_true_r.
    - rewrite (log_history_row_new _ _ _ E), lookup_insert_eq.
      eexists. split; [reflexivity|].
      unfold csv_text. cbn [foldr].
      rewrite has_cr_append, has_cr_writerow. reflexivity. }
  destruct Hsrc as (src & Hsrc & Hcr).
  exists src, (read_newlines src). split; [exact Hsrc|]. split.
  - rewrite (export_history_copy _ _ _ _ Hsrc) by assumption.
    cbn [snd]. rewrite lookup_insert_eq, write_newlines_lf. reflexivity.
  - split; [exact Hcr | apply read_newlines_no_cr].
Qed.

Lemma read_newlines_line s : forall t,
  no_newline s = true ->
  read_newlines (s +:+ CRLF +:+ t) = s +:+ String LF (read_newlines t).
Proof.
  induction s as [|c s IH]; intros t Hs; [reflexivity|].
  cbn [no_newline] in Hs. apply andb_prop in Hs as [Hc Hs].
  apply negb_true_iff in Hc. unfold is_newline in Hc.
  apply orb_false_elim in Hc as [_ Hcr].
  rewrite !append_cons. cbn [read_newlines]. rewrite Hcr, IH by assumption.
  reflexivity.
Qed.

Lemma write_newlines_line s : forall t,
  no_newline s = true ->
  write_newlines CRLF (s +:+ String LF t)
  = s +:+ CRLF +:+ write_newlines CRLF t.
Proof.
  induction s as [|c s IH]; intros t Hs; [reflexivity|].
  cbn [no_newline] in Hs. apply andb_prop in Hs as [Hc Hs].
  apply negb_true_iff in Hc. unfold is_newline in Hc.
  apply orb_false_elim in Hc as [Hlf _].
  rewrite !append_cons. cbn [write_newlines]. rewrite Hlf, IH by assumption.
  reflexivity.
Qed.

(** Where [os.linesep] is a carriage return and a line feed, a text whose
    lines have no other line break than their terminator goes through the
    two translations unchanged. *)
Lemma newlines_crlf_lines lines :
  Forall (fun s => no_newline s = true) lines ->
  write_newlines CRLF
    (read_newlines (foldr (fun s text => s +:+ CRLF +:+ text) "" lines))
  = foldr (fun s text => s +:+ CRLF +:+ text) "" lines.
Proof.
  induction 1 as [|s lines Hs _ IH]; [reflexivity|].
  cbn [foldr]. rewrite read_newlines_line, write_newlines_line by assumption.
  rewrite IH. reflexivity.
Qed.

(** ** Codes and labels *)

(** *** Characters *)

Lemma upper_char_idem c : upper_char (upper_char c) = upper_char c.
Proof. destruct c as [[] [] [] [] [] [] [] []]; reflexivity. Qed.

Lemma is_space_upper_char c : is_space (upper_char c) = is_space c.
Proof. destruct c as [[] [] [] [] [] [] [] []]; reflexivity. Qed.

(** [upper_char] maps the letters to letters: it makes no byte of the en
    dash and changes none. *)
Lemma upper_char_non_ascii c x :
  (128 <=? N_of_ascii x)%N = true -> upper_char c = x <-> c = x.
Proof.
  destruct c as [[] [] [] [] [] [] [] []];
    destruct x as [[] [] [] [] [] [] [] []];
    cbv; intros H; split; intros E; congruence.
Qed.

(** *** Reversal *)

Lemma rev_app_spec s : forall acc, String.rev_app s acc = String.rev s +:+ acc.
Proof.
  unfold String.rev. induction s as [|c s IH]; intros acc; [reflexivity|].
  cbn [String.rev_app]. rewrite (IH (String c acc)), (IH (String c "")).
  rewrite append_snoc. reflexivity.
Qed.

Lemma rev_cons c s : String.rev (String c s) = String.rev s +:+ String c "".
Proof. unfold String.rev at 1. cbn [String.rev_app]. apply rev_app_spec. Qed.

Lemma rev_snoc s c : String.rev (s +:+ String c "") = String c (String.rev s).
Proof.
  induction s as [|c' s IH]; [reflexivity|].
  rewrite append_cons, !rev_cons, IH. reflexivity.
Qed.

(** *** [strip] *)

Lemma all_space_append s t : all_space (s +:+ t) = all_space s && all_space t.
Proof.
  induction s as [|c s IH]; [reflexivity|].
  rewrite append_cons. cbn [all_space]. rewrite IH. apply andb_assoc.
Qed.

Lemma all_space_rev s : all_space (String.rev s) = all_space s.
Proof.
  induction s as [|c s IH]; [reflexivity|].
  rewrite rev_cons, all_space_append, IH. cbn [all_space].
  rewrite andb_true_r. apply andb_comm.
Qed.

Lemma lstrip_all_space s : all_space s = true -> lstrip s = "".
Proof.
  induction s as [|c s IH]; [reflexivity|].
  cbn [all_space lstrip]. intros [Hc Hs]%andb_prop. rewrite Hc. auto.
Qed.

Lemma lstrip_snoc s c :
  lstrip (s +:+ String c "")
  = if all_space s then (if is_space c then "" else String c "")
    else lstrip s +:+ String c "".
Proof.
  induction s as [|c' s IH]; [reflexivity|].
  rewrite append_cons. cbn [lstrip all_space].
  destruct (is_space c'); [exact IH | reflexivity].
Qed.

Lemma rstrip_cons c s :
  rstrip (String c s)
  = if is_space c && all_space s then "" else String c (rstrip s).
Proof.
  unfold rstrip. rewrite rev_cons, lstrip_snoc, all_space_rev.
  destruct (all_space s) eqn:Hs.
  - rewrite andb_true_r. destruct (is_space c); [reflexivity|].
    rewrite lstrip_all_space by (rewrite all_space_rev; exact Hs). reflexivity.
  - rewrite andb_false_r. apply rev_snoc.
Qed.

(** The definition of [rstrip] by two reversals is the recursive one. *)
Lemma rstrip_rstrip_rec s : rstrip s = rstrip_rec s.
Proof.
  induction s as [|c s IH]; [reflexivity|].
  rewrite rstrip_cons. cbn [rstrip_rec]. rewrite IH. reflexivity.
Qed.

Lemma strip_rec s : strip s = rstrip_rec (lstrip s).
Proof. apply rstrip_rstrip_rec. Qed.

Lemma lstrip_idem s : lstrip (lstrip s) = lstrip s.
Proof.
  induction s as [|c s IH]; [reflexivity|].
  cbn [lstrip]. destruct (is_space c) eqn:Hc; [exact IH|].
  cbn [lstrip]. rewrite Hc. reflexivity.
Qed.

Lemma all_space_rstrip_rec s : all_space (rstrip_rec s) = all_space s.
Proof.
  induction s as [|c s IH]; [reflexivity|].
  cbn [rstrip_rec all_space].
  destruct (is_space c && all_space s) eqn:H; [reflexivity|].
  cbn [all_space]. rewrite IH. exact H.
Qed.

Lemma rstrip_rec_idem s : rstrip_rec (rstrip_rec s) = rstrip_rec s.
Proof.
  induction s as [|c s IH]; [reflexivity|].
  cbn [rstrip_rec]. destruct (is_space c && all_space s) eqn:H; [reflexivity|].
  cbn [rstrip_rec]. rewrite all_space_rstrip_rec, H, IH. reflexivity.
Qed.

Lemma lstrip_rstrip_rec s : lstrip (rstrip_rec s) = rstrip_rec (lstrip s).
Proof.
  induction s as [|c s IH]; [reflexivity|].
  cbn [rstrip_rec lstrip]. destruct (is_space c) eqn:Hc.
  - cbn [andb]. destruct (all_space s) eqn:Hs.
    + rewrite (lstrip_all_space s Hs). reflexivity.
    + cbn [lstrip]. rewrite Hc. exact IH.
  - cbn [andb lstrip rstrip_rec]. rewrite Hc. reflexivity.
Qed.

Lemma strip_idem s : strip (strip s) = strip s.
Proof.
  rewrite !strip_rec, lstrip_rstrip_rec, lstrip_idem. apply rstrip_rec_idem.
Qed.

(** *** [upper] *)

Lemma upper_idem s : upper (upper s) = upper s.
Proof.
  induction s as [|c s IH]; [reflexivity|].
  cbn [upper]. rewrite upper_char_idem, IH. reflexivity.
Qed.

Lemma all_space_upper s : all_space (upper s) = all_space s.
Proof.
  induction s as [|c s IH]; [reflexivity|].
  cbn [upper all_space]. rewrite is_space_upper_char, IH. reflexivity.
Qed.

Lemma lstrip_upper s : lstrip (upper s) = upper (lstrip s).
Proof.
  induction s as [|c s IH]; [reflexivity|].
  cbn [upper lstrip]. rewrite is_space_upper_char.
  destruct (is_space c); [exact IH | reflexivity].
Qed.

Lemma rstrip_rec_upper s : rstrip_rec (upper s) = upper (rstrip_rec s).
Proof.
  induction s as [|c s IH]; [reflexivity|].
  cbn [upper rstrip_rec]. rewrite is_space_upper_char, all_space_upper.
  destruct (is_space c && all_space s); [reflexivity|].
  cbn [upper]. rewrite IH. reflexivity.
Qed.

Lemma strip_upper s : strip (upper s) = upper (strip s).
Proof. rewrite !strip_rec, lstrip_upper. apply rstrip_rec_upper. Qed.

(** The normal form of a code: stripped and in upper case. *)
Lemma normal_code s :
  strip (upper (strip s)) = upper (strip s) /\
  upper (upper (strip s)) = upper (strip s).
Proof.
  split; [|apply upper_idem]. rewrite strip_upper, strip_idem. reflexivity.
Qed.

(** *** Occurrences of a separator *)

Lemma prefix_nil_r sep : sep <> "" -> String.prefix sep "" = false.
Proof. destruct sep; [congruence | reflexivity]. Qed.

Lemma prefix_append sep : forall s t,
  String.prefix sep s = true -> String.prefix sep (s +:+ t) = true.
Proof.
  induction sep as [|a sep IH]; intros s t H.
  - destruct (s +:+ t); reflexivity.
  - destruct s as [|b s]; [discriminate|].
    rewrite append_cons. cbn [String.prefix] in *.
    destruct (ascii_dec a b); [auto | discriminate].
Qed.

Lemma before_sep_cons sep c s :
  before_sep sep (String c s)
  = if String.prefix sep (String c s) then Some ""
    else String c <$> before_sep sep s.
Proof. reflexivity. Qed.

Lemma before_sep_none_cons sep c s :
  before_sep sep (String c s) = None ->
  String.prefix sep (String c s) = false /\ before_sep sep s = None.
Proof.
  rewrite before_sep_cons. destruct (String.prefix sep (String c s)); [discriminate|].
  destruct (before_sep sep s); [discriminate | auto].
Qed.

(** No occurrence in a string, none in its prefixes. *)
Lemma before_sep_none_prefix sep s : forall t,
  sep <> "" -> before_sep sep (s +:+ t) = None -> before_sep sep s = None.
Proof.
  induction s as [|c s IH]; intros t Hsep H.
  - cbn [before_sep]. rewrite prefix_nil_r by assumption. reflexivity.
  - rewrite append_cons in H. apply before_sep_none_cons in H as [Hp Hs].
    rewrite before_sep_cons.
    destruct (String.prefix sep (String c s)) eqn:Hp'.
    + apply (prefix_append sep _ t) in Hp'. rewrite append_cons in Hp'. congruence.
    + rewrite (IH t Hsep Hs). reflexivity.
Qed.

Lemma before_sep_split sep s : forall p,
  before_sep sep s = Some p -> exists t, s = p +:+ t.
Proof.
  induction s as [|c s IH]; intros p H.
  - cbn [before_sep] in H. destruct (String.prefix sep ""); [|discriminate].
    injection H as <-. exists "". reflexivity.
  - rewrite before_sep_cons in H. destruct (String.prefix sep (String c s)).
    + injection H as <-. exists (String c s). reflexivity.
    + destruct (before_sep sep s) as [p'|] eqn:Hs; [|discriminate].
      injection H as <-. destruct (IH p' eq_refl) as [t ->].
      exists t. reflexivity.
Qed.

(** What stands before the first occurrence has no occurrence. *)
Lemma before_sep_before sep s p :
  sep <> "" -> before_sep sep s = Some p -> before_sep sep p = None.
Proof.
  intros Hsep. revert p. induction s as [|c s IH]; intros p H.
  - cbn [before_sep] in H. rewrite prefix_nil_r in H by assumption. discriminate.
  - rewrite before_sep_cons in H.
    destruct (String.prefix sep (String c s)) eqn:Hp.
    + injection H as <-. cbn [before_sep].
      rewrite prefix_nil_r by assumption. reflexivity.
    + destruct (before_sep sep s) as [p'|] eqn:Hs; [|discriminate].
      injection H as <-. rewrite before_sep_cons.
      destruct (before_sep_split sep s p' Hs) as [t Ht].
      destruct (String.prefix sep (String c p')) eqn:Hp'.
      * apply (prefix_append sep _ t) in Hp'.
        rewrite append_cons, <- Ht in Hp'. congruence.
      * rewrite (IH p' eq_refl). reflexivity.
Qed.

Lemma before_sep_none_lstrip sep s :
  before_sep sep s = None -> before_sep sep (lstrip s) = None.
Proof.
  induction s as [|c s IH]; intros H; [exact H|].
  cbn [lstrip]. destruct (is_space c); [|exact H].
  apply IH. apply (before_sep_none_cons sep c s H).
Qed.

Lemma rstrip_rec_prefix s : exists t, s = rstrip_rec s +:+ t.
Proof.
  induction s as [|c s [t IH]]; [exists ""; reflexivity|].
  cbn [rstrip_rec]. destruct (is_space c && all_space s).
  - exists (String c s). reflexivity.
  - exists t. rewrite append_cons, <- IH. reflexivity.
Qed.

Lemma before_sep_none_strip sep s :
  sep <> "" -> before_sep sep s = None -> before_sep sep (strip s) = None.
Proof.
  intros Hsep H. rewrite strip_rec.
  destruct (rstrip_rec_prefix (lstrip s)) as [t Ht].
  apply (before_sep_none_prefix sep _ t Hsep). rewrite <- Ht.
  apply before_sep_none_lstrip. exact H.
Qed.

(** [upper] neither makes nor unmakes an en dash. *)
Lemma prefix_dash_upper s :
  String.prefix EN_DASH (upper s) = String.prefix EN_DASH s.
Proof.
  assert (Hchar : forall (x c : ascii),
            (128 <=? N_of_ascii x)%N = true ->
            (if ascii_dec x (upper_char c) then true else false)
            = (if ascii_dec x c then true else false)).
  { intros x c Hx. pose proof (upper_char_non_ascii c x Hx) as [H1 H2].
    destruct (ascii_dec x (upper_char c)), (ascii_dec x c); auto;
      exfalso; auto using eq_sym. }
  unfold EN_DASH.
  destruct s as [|c1 [|c2 [|c3 s]]]; cbn [upper String.prefix];
    try reflexivity.
  - pose proof (Hchar "226"%char c1 eq_refl) as H1.
    destruct (ascii_dec _ (upper_char c1)), (ascii_dec _ c1);
      reflexivity || discriminate.
  - pose proof (Hchar "226"%char c1 eq_refl) as H1.
    pose proof (Hchar "128"%char c2 eq_refl) as H2.
    destruct (ascii_dec _ (upper_char c1)), (ascii_dec _ c1);
      try (reflexivity || discriminate).
    destruct (ascii_dec _ (upper_char c2)), (ascii_dec _ c2);
      reflexivity || discriminate.
  - pose proof (Hchar "226"%char c1 eq_refl) as H1.
    pose proof (Hchar "128"%char c2 eq_refl) as H2.
    pose proof (Hchar "147"%char c3 eq_refl) as H3.
    destruct (ascii_dec _ (upper_char c1)), (ascii_dec _ c1);
      try (reflexivity || discriminate).
    destruct (ascii_dec _ (upper_char c2)), (ascii_dec _ c2);
      try (reflexivity || discriminate).
    destruct (ascii_dec _ (upper_char c3)), (ascii_dec _ c3);
      try (reflexivity || discriminate).
    destruct (upper s), s; reflexivity.
Qed.

Lemma before_dash_none_upper s :
  before_sep EN_DASH s = None -> before_sep EN_DASH (upper s) = None.
Proof.
  induction s as [|c s IH]; intros H; [exact H|].
  apply before_sep_none_cons in H as [Hp Hs].
  change (upper (String c s)) with (String (upper_char c) (upper s)).
  rewrite before_sep_cons.
  change (String (upper_char c) (upper s)) with (upper (String c s)).
  rewrite prefix_dash_upper, Hp, (IH Hs). reflexivity.
Qed.

Lemma en_dash_nonempty : EN_DASH <> "".
Proof. discriminate. Qed.

(** The code that [_parse_iata_from_combo] returns is stripped, in upper
    case and without en dash. *)
Lemma parse_iata_normal text :
  strip (_parse_iata_from_combo text) = _parse_iata_from_combo text /\
  upper (_parse_iata_from_combo text) = _parse_iata_from_combo text /\
  before_sep EN_DASH (_parse_iata_from_combo text) = None.
Proof.
  unfold _parse_iata_from_combo. case_bool_decide as Htext.
  - repeat split; reflexivity.
  - destruct (before_sep EN_DASH text) as [code|] eqn:Hdash.
    + destruct (normal_code code) as [Hs Hu]. repeat split; try assumption.
      apply before_dash_none_upper, before_sep_none_strip;
        [apply en_dash_nonempty|].
      apply (before_sep_before _ text); [apply en_dash_nonempty | exact Hdash].
    + destruct (normal_code text) as [Hs Hu]. repeat split; try assumption.
      apply before_dash_none_upper, before_sep_none_strip;
        [apply en_dash_nonempty | exact Hdash].
Qed.

(** A code that is stripped, in upper case and without en dash is read as
    itself. *)
Lemma parse_iata_fixed k :
  strip k = k -> upper k = k -> before_sep EN_DASH k = None ->
  _parse_iata_from_combo k = k.
Proof.
  intros Hs Hu Hd. unfold _parse_iata_from_combo.
  case_bool_decide as Hk; [congruence|].
  rewrite Hd, Hs, Hu. reflexivity.
Qed.

(** *** The label of an airport *)

Lemma lstrip_head s c t : lstrip s = String c t -> is_space c = false.
Proof.
  induction s as [|c' s IH]; [discriminate|].
  cbn [lstrip]. destruct (is_space c') eqn:Hc; [exact IH|].
  intros [= <- _]. exact Hc.
Qed.

Lemma strip_fixed_lstrip k : strip k = k -> lstrip k = k.
Proof.
  rewrite strip_rec. destruct k as [|c k]; [reflexivity|].
  cbn [lstrip]. destruct (is_space c) eqn:Hc; [|reflexivity].
  intros H. exfalso.
  destruct (lstrip k) as [|c0 t] eqn:Hl; [discriminate|].
  pose proof (lstrip_head k c0 t Hl) as Hc0.
  cbn [rstrip_rec] in H. rewrite Hc0 in H. cbn [andb] in H.
  injection H as -> _. congruence.
Qed.

Lemma rstrip_rec_append_space s t :
  all_space t = true -> rstrip_rec (s +:+ t) = rstrip_rec s.
Proof.
  intros Ht. induction s as [|c s IH].
  - rewrite append_nil_l. destruct t as [|c t]; [reflexivity|].
    cbn [rstrip_rec]. cbn [all_space] in Ht. rewrite Ht. reflexivity.
  - rewrite append_cons. cbn [rstrip_rec].
    rewrite all_space_append, Ht, andb_true_r, IH. reflexivity.
Qed.

Lemma strip_append_space k :
  strip k = k -> strip (k +:+ " ") = k.
Proof.
  intros Hk. pose proof (strip_fixed_lstrip k Hk) as Hl.
  rewrite strip_rec in *.
  destruct k as [|c k]; [reflexivity|].
  rewrite append_cons. cbn [lstrip] in *.
  destruct (is_space c) eqn:Hc.
  - exfalso. apply (f_equal String.length) in Hl.
    assert (Hlen : forall s, (String.length (lstrip s) <= String.length s)%nat).
    { clear. induction s as [|c s IH]; [reflexivity|].
      cbn [lstrip]. destruct (is_space c); cbn [String.length]; lia. }
    specialize (Hlen k). cbn [String.length] in Hl. lia.
  - rewrite <- append_cons, rstrip_rec_append_space by reflexivity.
    exact Hk.
Qed.

Lemma prefix_self_append sep rest : String.prefix sep (sep +:+ rest) = true.
Proof.
  induction sep as [|a sep IH]; [destruct rest; reflexivity|].
  rewrite append_cons. cbn [String.prefix].
  destruct (ascii_dec a a); [exact IH | congruence].
Qed.

(** The en dash of the label is the first one when the code has none. *)
Lemma before_dash_label k rest :
  before_sep EN_DASH k = None ->
  before_sep EN_DASH (k +:+ " " +:+ EN_DASH +:+ rest) = Some (k +:+ " ").
Proof.
  induction k as [|c1 k IH]; intros Hk.
  { rewrite append_nil_l.
    change (" " +:+ EN_DASH +:+ rest) with (String " " (EN_DASH +:+ rest)).
    rewrite before_sep_cons.
    replace (String.prefix EN_DASH (String " " (EN_DASH +:+ rest))) with false
      by reflexivity.
    destruct (EN_DASH +:+ rest) as [|c s] eqn:E; [discriminate|].
    rewrite before_sep_cons, <- E, prefix_self_append. reflexivity. }
  apply before_sep_none_cons in Hk as [Hp Hk].
  rewrite append_cons, before_sep_cons.
  assert (Hno : String.prefix EN_DASH (String c1 (k +:+ " " +:+ EN_DASH +:+ rest))
                = false).
  { clear IH Hk. unfold EN_DASH in *. cbn [String.prefix] in Hp |- *.
    destruct (ascii_dec "226" c1); [|reflexivity].
    destruct k as [|c2 k]; [reflexivity|].
    rewrite append_cons. cbn [String.prefix] in Hp |- *.
    destruct (ascii_dec "128" c2); [|reflexivity].
    destruct k as [|c3 k]; [reflexivity|].
    rewrite append_cons. cbn [String.prefix] in Hp |- *.
    destruct (ascii_dec "147" c3); [|reflexivity].
    destruct k; discriminate. }
  rewrite Hno, (IH Hk). reflexivity.
Qed.

Lemma parse_iata_label k v :
  strip k = k -> upper k = k -> before_sep EN_DASH k = None ->
  _parse_iata_from_combo (airport_label k v) = k.
Proof.
  intros Hs Hu Hd. unfold _parse_iata_from_combo, airport_label.
  rewrite bool_decide_eq_false_2
    by (apply nonempty_append; discriminate).
  rewrite (before_dash_label k _ Hd), (strip_append_space k Hs). exact Hu.
Qed.

(** *** [load_airports] *)

Section LoadAirports.
Variable B : builtins.

Lemma load_airport_row_lookup out row out' k v :
  load_airport_row B out row = inr out' ->
  out' !! k = Some v ->
  out !! k = Some v \/
  exists code s1 s2,
    row !! "IATA" = Some (Some code) /\ k = upper (strip code) /\
    row !! "Latitude" = Some (Some s1) /\ py_float B s1 = Some (e_lat v) /\
    row !! "Longitude" = Some (Some s2) /\ py_float B s2 = Some (e_lon v) /\
    e_name v = row_get row "Name" /\ e_country v = row_get row "Country".
Proof.
  unfold load_airport_row, row_coordinates.
  destruct (row !! "IATA") as [[code|]|] eqn:Hi; try discriminate.
  destruct (row !! "Latitude") as [[s1|]|] eqn:H1;
    try solve [intros [= <-]; auto].
  destruct (py_float B s1) as [la|] eqn:Hla; cbn [mbind option_bind];
    try solve [intros [= <-]; auto].
  destruct (row !! "Longitude") as [[s2|]|] eqn:H2;
    try solve [intros [= <-]; auto].
  destruct (py_float B s2) as [lo|] eqn:Hlo; cbn [mbind option_bind];
    try solve [intros [= <-]; auto].
  intros [= <-] Hlook.
  destruct (decide (upper (strip code) = k)) as [<-|Hne].
  - rewrite lookup_insert_eq in Hlook. injection Hlook as <-.
    right. exists code, s1, s2. cbn [e_lat e_lon e_name e_country].
    repeat split; assumption.
  - rewrite lookup_insert_ne in Hlook by assumption. auto.
Qed.

Lemma load_airport_rows_lookup rows : forall out table k v,
  load_airport_rows B out rows = inr table ->
  table !! k = Some v ->
  out !! k = Some v \/
  exists row code s1 s2,
    row ∈ rows /\
    row !! "IATA" = Some (Some code) /\ k = upper (strip code) /\
    row !! "Latitude" = Some (Some s1) /\ py_float B s1 = Some (e_lat v) /\
    row !! "Longitude" = Some (Some s2) /\ py_float B s2 = Some (e_lon v) /\
    e_name v = row_get row "Name" /\ e_country v = row_get row "Country".
Proof.
  induction rows as [|row rows IH]; intros out table k v Hload Hlook.
  - injection Hload as <-. auto.
  - cbn [load_airport_rows] in Hload.
    destruct (load_airport_row B out row) as [e|out'] eqn:Hrow; [discriminate|].
    destruct (IH out' table k v Hload Hlook)
      as [Hout | (row' & code & s1 & s2 & Hin & Hrest)].
    + destruct (load_airport_row_lookup out row out' k v Hrow Hout)
        as [Hold | (code & s1 & s2 & Hrest)]; [auto|].
      right. exists row, code, s1, s2. split; [apply list_elem_of_here | exact Hrest].
    + right. exists row', code, s1, s2.
      split; [apply list_elem_of_further; exact Hin | exact Hrest].
Qed.

(** The load goes through exactly when every row has its code; the
    coordinates play no part in it. *)
Lemma load_airport_rows_ok rows : forall out,
  (exists table, load_airport_rows B out rows = inr table) <->
  Forall (fun row => exists code, row !! "IATA" = Some (Some code)) rows.
Proof.
  induction rows as [|row rows IH]; intros out.
  - split; [constructor | eauto].
  - cbn [load_airport_rows]. split.
    + intros [table H].
      destruct (load_airport_row B out row) as [e|out'] eqn:Hrow; [discriminate|].
      constructor; [|apply (IH out'); eauto].
      unfold load_airport_row in Hrow.
      destruct (row !! "IATA") as [[code|]|]; try discriminate. eauto.
    + intros H. inversion H as [|? ? [code Hcode] Hrest]; subst.
      unfold load_airport_row. rewrite Hcode.
      destruct (row_coordinates B row) as [[la lo]|]; apply IH; assumption.
Qed.

(** The first row without its code decides the exception. *)
Lemma load_airport_rows_error good bad rest out e :
  Forall (fun row => exists code, row !! "IATA" = Some (Some code)) good ->
  bad !! "IATA" = match e with
                  | AirportsKeyError => None
                  | _ => Some None
                  end ->
  e = AirportsKeyError \/ e = AirportsAttributeError ->
  load_airport_rows B out (good ++ bad :: rest) = inl e.
Proof.
  intros Hgood Hbad He. revert out.
  induction Hgood as [|row good [code Hcode] _ IH]; intros out.
  - cbn [List.app load_airport_rows]. unfold load_airport_row.
    destruct He as [-> | ->]; rewrite Hbad; reflexivity.
  - cbn [List.app load_airport_rows]. unfold load_airport_row at 1. rewrite Hcode.
    destruct (row_coordinates B row) as [[la lo]|]; apply IH.
Qed.

Lemma load_airport_row_skip out row code :
  row !! "IATA" = Some (Some code) ->
  airport_row_loads B row = false ->
  load_airport_row B out row = inr out.
Proof.
  intros Hcode Hskip. unfold load_airport_row, airport_row_loads in *.
  rewrite Hcode. destruct (row_coordinates B row); [|reflexivity].
  rewrite bool_decide_eq_true_2 in Hskip by eauto. discriminate.
Qed.

(** The rows whose coordinates [float] does not read leave no trace. *)
Lemma load_airport_rows_filter rows : forall out,
  Forall (fun row => exists code, row !! "IATA" = Some (Some code)) rows ->
  load_airport_rows B out rows
  = load_airport_rows B out
      (filter (fun row => airport_row_loads B row = true) rows).
Proof.
  induction rows as [|row rows IH]; intros out H; [reflexivity|].
  inversion H as [|? ? [code Hcode] Hrest]; subst.
  destruct (airport_row_loads B row) eqn:Hl.
  - rewrite filter_cons_True by assumption. cbn [load_airport_rows].
    destruct (load_airport_row B out row); [reflexivity | apply IH; assumption].
  - rewrite filter_cons_False by (rewrite Hl; discriminate).
    cbn [load_airport_rows].
    rewrite (load_airport_row_skip out row code Hcode Hl). apply IH; assumption.
Qed.

End LoadAirports.

(** ** Properties of the reference data *)

Lemma sample_airport_rows :
  DictReader sample_airport_file
  = Some [dict_of_row ["IATA"; "Name"; "Latitude"; "Longitude"; "Country"]
            [" del "; "Palam"; "28.5"; "77.1"; "India"];
          dict_of_row ["IATA"; "Name"; "Latitude"; "Longitude"; "Country"]
            ["XXX"; "Nowhere"; "n/a"; "0"; "Nowhere"];
          dict_of_row ["IATA"; "Name"; "Latitude"; "Longitude"; "Country"]
            ["DEL"; "Indira Gandhi"; "28.56"; "77.1"; "India"]].
Proof. reflexivity. Qed.

Lemma sample_airports_loaded :
  load_airports decimal_builtins AIRPORTS_CSV
    {[ AIRPORTS_CSV := sample_airport_file ]}
  = inr sample_airport_table.
Proof.
  unfold load_airports. rewrite lookup_singleton_eq, sample_airport_rows.
  cbn [load_airport_rows].
  replace (load_airport_row decimal_builtins ∅ _)
    with (@inr airports_error airport_table
            {[ "DEL" := AirportEntry (Some "Palam") (285 / 10) (771 / 10)
                          (Some "India") ]}) by reflexivity.
  replace (load_airport_row decimal_builtins _
             (dict_of_row _ ["XXX"; "Nowhere"; "n/a"; "0"; "Nowhere"]))
    with (@inr airports_error airport_table
            {[ "DEL" := AirportEntry (Some "Palam") (285 / 10) (771 / 10)
                          (Some "India") ]}) by reflexivity.
  unfold load_airport_row.
  replace (dict_of_row _ _ !! "IATA") with (Some (Some "DEL")) by reflexivity.
  replace (row_coordinates decimal_builtins _)
    with (Some (2856 / 100, 771 / 10)) by reflexivity.
  replace (row_get _ "Name") with (Some "Indira Gandhi") by reflexivity.
  replace (row_get _ "Country") with (Some "India") by reflexivity.
  replace (upper (strip "DEL")) with "DEL" by reflexivity.
  rewrite insert_singleton_eq. reflexivity.
Qed.

(** An entry of the airport table comes from a row of the file: its key is
    the code of the row, stripped and in upper case, and its coordinates
    are what [float] read in the row. *)
Theorem load_airports_entries
    (B : builtins) (path : string) (fs : filesystem)
    (table : airport_table) (k : string) (v : airport_entry) :
  load_airports B path fs = inr table ->
  table !! k = Some v ->
  (strip k = k /\ upper k = k) /\
  exists content rows row code s1 s2,
    fs !! path = Some content /\ DictReader content = Some rows /\
    row ∈ rows /\
    row !! "IATA" = Some (Some code) /\ k = upper (strip code) /\
    row !! "Latitude" = Some (Some s1) /\ py_float B s1 = Some (e_lat v) /\
    row !! "Longitude" = Some (Some s2) /\ py_float B s2 = Some (e_lon v) /\
    e_name v = row_get row "Name" /\ e_country v = row_get row "Country".
Proof.
  unfold load_airports. intros Hload Hlook.
  destruct (fs !! path) as [content|] eqn:Hfile; [|discriminate].
  destruct (DictReader content) as [rows|] eqn:Hrows; [|discriminate].
  destruct (load_airport_rows_lookup B rows ∅ table k v Hload Hlook)
    as [Hempty | (row & code & s1 & s2 & Hin & Hcode & Hk & Hrest)].
  - rewrite lookup_empty in Hempty. discriminate.
  - split.
    + rewrite Hk. apply normal_code.
    + exists content, rows, row, code, s1, s2.
      split; [reflexivity|]. split; [exact Hrows|]. auto.
Qed.

Lemma load_airports_entries_witness :
  (strip "DEL" = "DEL" /\ upper "DEL" = "DEL") /\
  exists content rows row code s1 s2,
    ({[ AIRPORTS_CSV := sample_airport_file ]} : filesystem) !! AIRPORTS_CSV
      = Some content /\
    DictReader content = Some rows /\
    row ∈ rows /\
    row !! "IATA" = Some (Some code) /\ "DEL" = upper (strip code) /\
    row !! "Latitude" = Some (Some s1) /\ decimal_float s1 = Some (2856 / 100) /\
    row !! "Longitude" = Some (Some s2) /\ decimal_float s2 = Some (771 / 10) /\
    Some "Indira Gandhi" = row_get row "Name" /\
    Some "India" = row_get row "Country".
Proof.
  apply (load_airports_entries decimal_builtins AIRPORTS_CSV
           {[ AIRPORTS_CSV := sample_airport_file ]}
           sample_airport_table "DEL" sample_airport_entry).
  - exact sample_airports_loaded.
  - apply lookup_singleton_eq.
Defined.

(** The load of an existing airport file goes through exactly when every
    row has a code; then the rows whose coordinates are not numbers are
    dropped, and the table is the one of the other rows. *)
Theorem load_airports_succeeds_iff
    (B : builtins) (path : string) (fs : filesystem) (content : string) :
  fs !! path = Some content ->
  exists rows,
    DictReader content = Some rows /\
    ((exists table, load_airports B path fs = inr table) <->
     Forall (fun row => exists code, row !! "IATA" = Some (Some code)) rows) /\
    (Forall (fun row => exists code, row !! "IATA" = Some (Some code)) rows ->
     load_airports B path fs
     = load_airport_rows B ∅
         (filter (fun row => airport_row_loads B row = true) rows)).
Proof.
  intros Hfile. unfold load_airports, DictReader. rewrite Hfile.
  destruct (csv_reader_total content) as [recs ->].
  cbn [fmap option_fmap option_map]. exists (dict_rows recs).
  split; [reflexivity|]. split.
  - apply load_airport_rows_ok.
  - apply load_airport_rows_filter.
Qed.

Lemma load_airports_succeeds_iff_witness :
  exists rows,
    DictReader sample_airport_file = Some rows /\
    ((exists table, load_airports decimal_builtins AIRPORTS_CSV
                      {[ AIRPORTS_CSV := sample_airport_file ]} = inr table) <->
     Forall (fun row => exists code, row !! "IATA" = Some (Some code)) rows) /\
    (Forall (fun row => exists code, row !! "IATA" = Some (Some code)) rows ->
     load_airports decimal_builtins AIRPORTS_CSV
       {[ AIRPORTS_CSV := sample_airport_file ]}
     = load_airport_rows decimal_builtins ∅
         (filter (fun row => airport_row_loads decimal_builtins row = true) rows)).
Proof.
  apply (load_airports_succeeds_iff decimal_builtins AIRPORTS_CSV
           {[ AIRPORTS_CSV := sample_airport_file ]} sample_airport_file).
  apply lookup_singleton_eq.
Defined.

(** A row without code stops the load, whatever the other rows hold: with
    [KeyError] when the file has no [IATA] column, with [AttributeError]
    when the row is too short to have the column. *)
Theorem load_airports_row_without_code
    (B : builtins) (path : string) (fs : filesystem) (content : string)
    (good rest : list dictrow) (bad : dictrow) :
  fs !! path = Some content ->
  DictReader content = Some (good ++ bad :: rest) ->
  Forall (fun row => exists code, row !! "IATA" = Some (Some code)) good ->
  (bad !! "IATA" = None ->
   load_airports B path fs = inl AirportsKeyError) /\
  (bad !! "IATA" = Some None ->
   load_airports B path fs = inl AirportsAttributeError).
Proof.
  intros Hfile Hrows Hgood. unfold load_airports. rewrite Hfile, Hrows.
  split; intros Hbad.
  - apply load_airport_rows_error; auto.
  - apply load_airport_rows_error; auto.
Qed.

Lemma load_airports_row_without_code_witness :
  load_airports decimal_builtins AIRPORTS_CSV
    {[ AIRPORTS_CSV := "Code,Latitude,Longitude" +:+ CRLF
                       +:+ "DEL,28.56,77.1" +:+ CRLF ]}
  = inl AirportsKeyError.
Proof.
  apply (load_airports_row_without_code decimal_builtins AIRPORTS_CSV
           {[ AIRPORTS_CSV := "Code,Latitude,Longitude" +:+ CRLF
                              +:+ "DEL,28.56,77.1" +:+ CRLF ]}
           ("Code,Latitude,Longitude" +:+ CRLF +:+ "DEL,28.56,77.1" +:+ CRLF)
           []
           []
           (dict_of_row ["Code"; "Latitude"; "Longitude"]
              ["DEL"; "28.56"; "77.1"])).
  - apply lookup_singleton_eq.
  - reflexivity.
  - constructor.
  - reflexivity.
Defined.

(** The label that the combo boxes show for an airport of the table is
    read back as the code of this airport, which finds the airport again,
    as long as the code has no en dash. *)
Theorem airport_label_round_trip
    (B : builtins) (path : string) (fs : filesystem)
    (table : airport_table) (k : string) (v : airport_entry) :
  load_airports B path fs = inr table ->
  table !! k = Some v ->
  before_sep EN_DASH k = None ->
  _parse_iata_from_combo (airport_label k v) = k /\
  table !! _parse_iata_from_combo (airport_label k v) = Some v.
Proof.
  unfold load_airports. intros Hload Hlook Hdash.
  destruct (fs !! path) as [content|]; [|discriminate].
  destruct (DictReader content) as [rows|]; [|discriminate].
  assert (Hk : strip k = k /\ upper k = k).
  { destruct (load_airport_rows_lookup B rows ∅ table k v Hload Hlook)
      as [Hempty | (row & code & s1 & s2 & _ & _ & -> & _)].
    - rewrite lookup_empty in Hempty. discriminate.
    - apply normal_code. }
  destruct Hk as [Hs Hu].
  rewrite (parse_iata_label k v Hs Hu Hdash). auto.
Qed.

Lemma airport_label_round_trip_witness :
  _parse_iata_from_combo
    (airport_label "DEL" sample_airport_entry)
  = "DEL".
Proof.
  apply (airport_label_round_trip decimal_builtins AIRPORTS_CSV
           {[ AIRPORTS_CSV := sample_airport_file ]}
           sample_airport_table "DEL" sample_airport_entry).
  - exact sample_airports_loaded.
  - apply lookup_singleton_eq.
  - reflexivity.
Defined.

(** The code read in a combo box is stripped, in upper case and without en
    dash, and it is read as itself: [_parse_iata_from_combo] is
    idempotent. *)
Theorem parse_iata_idempotent (text : string) :
  _parse_iata_from_combo (_parse_iata_from_combo text)
  = _parse_iata_from_combo text /\
  strip (_parse_iata_from_combo text) = _parse_iata_from_combo text /\
  upper (_parse_iata_from_combo text) = _parse_iata_from_combo text /\
  contains EN_DASH (_parse_iata_from_combo text) = false.
Proof.
  destruct (parse_iata_normal text) as (Hs & Hu & Hd).
  split; [apply parse_iata_fixed; assumption|].
  split; [exact Hs|]. split; [exact Hu|].
  unfold contains. rewrite Hd. apply bool_decide_eq_false_2.
  intros [? ?]. discriminate.
Qed.

(** ** More properties of the estimator *)

Lemma atan_nonneg x : 0 <= x -> 0 <= atan x.
Proof.
  intros [Hx | <-].
  - left. rewrite <- atan_0. apply atan_increasing. exact Hx.
  - rewrite atan_0. lra.
Qed.

(** The angle of a point of the first quadrant. *)
Lemma atan2_first_quadrant y x :
  0 <= y -> 0 <= x -> (x = 0 -> 0 < y) -> 0 <= atan2 y x <= PI / 2.
Proof.
  intros Hy Hx Hpoint. unfold atan2. pose proof PI_RGT_0 as Hpi.
  destruct (Rlt_dec 0 x) as [Hpos|Hnpos].
  - split.
    + apply atan_nonneg. apply Rmult_le_pos; [exact Hy|].
      left. apply Rinv_0_lt_compat. exact Hpos.
    + left. apply atan_bound.
  - destruct (Rlt_dec x 0) as [Hneg|_]; [lra|].
    assert (Hx0 : x = 0) by lra.
    destruct (Rlt_dec 0 y) as [_|Hny]; [lra|].
    specialize (Hpoint Hx0). lra.
Qed.

(** The great-circle distance is never negative and never more than half
    the circumference of the sphere, [6371 * PI] km. *)
Theorem haversine_km_range (lat1 lon1 lat2 lon2 : R) :
  0 <= haversine_km lat1 lon1 lat2 lon2 <= 6371 * PI.
Proof.
  unfold haversine_km.
  pose proof (haversine_a_bounds lat1 lon1 lat2 lon2) as [Ha0 Ha1].
  set (a := haversine_a lat1 lon1 lat2 lon2) in *.
  assert (Hq : 0 <= atan2 (sqrt a) (sqrt (1 - a)) <= PI / 2).
  { apply atan2_first_quadrant; try apply sqrt_pos.
    intros Hzero. apply sqrt_eq_0 in Hzero; [|lra].
    replace a with 1 by lra. rewrite sqrt_1. lra. }
  cbv zeta. lra.
Qed.

(** The estimate of a flight is at least its surcharge. *)
Lemma estimate_co2_lower d f rf : 0 <= d -> 0 <= f -> 50 <= estimate_co2 d f rf.
Proof.
  intros Hd Hf. pose proof (Rmult_le_pos d f Hd Hf) as Hdf.
  destruct (Rle_dec d 1500) as [H|H].
  - rewrite estimate_co2_short by assumption. destruct rf; lra.
  - rewrite estimate_co2_long by lra. destruct rf; lra.
Qed.

Lemma estimate_co2_factor_le d f1 f2 rf :
  0 <= d -> f1 <= f2 -> estimate_co2 d f1 rf <= estimate_co2 d f2 rf.
Proof.
  intros Hd Hf. pose proof (Rmult_le_compat_l d f1 f2 Hd Hf) as Hdf.
  destruct (Rle_dec d 1500) as [H|H].
  - rewrite !estimate_co2_short by assumption. destruct rf; lra.
  - rewrite !estimate_co2_long by lra. destruct rf; lra.
Qed.

Lemma apply_saf_le x y saf :
  (saf <= 125)%Z -> x <= y -> apply_saf x saf <= apply_saf y saf.
Proof.
  intros Hs Hxy. unfold apply_saf. unfold_consts.
  destruct (Z.ltb_spec 0 saf) as [Hlt|Hge]; [|assumption].
  apply Rmult_le_compat_r; [|assumption].
  assert (IZR saf <= 125) by (apply IZR_le; lia). lra.
Qed.

Lemma apply_saf_blend_le x s1 s2 :
  0 <= x -> (0 <= s1 <= s2)%Z -> apply_saf x s2 <= apply_saf x s1.
Proof.
  intros Hx [H1 H2]. rewrite !apply_saf_factor by lia.
  assert (IZR s1 <= IZR s2) by (apply IZR_le; lia). nra.
Qed.

(** With the blend in the range of the slider, 0 to 50, every figure of a
    calculation for a distance and a factor that are not negative is
    positive: the CO2 is at least 30 kg. *)
Theorem calculated_figures_positive
    (B : builtins) (now : string) (a : app) (fs : filesystem) (dist f : R) :
  flight_distance B a = inr dist -> 0 <= dist ->
  factors a !! Some (ac_cb a) = Some f -> 0 <= f ->
  (0 <= saf_var a <= 50)%Z ->
  exists r e fs' t,
    calculate_action B now a fs = (Calculated r e, fs', t) /\
    30 <= r_co2 r /\ 0 < r_fuel r /\ 0 < r_trees r /\ 0 < r_cost r.
Proof.
  intros Hdist Hd Hfac Hf Hsaf.
  destruct (calculate_action_calculated B now a fs dist f Hdist Hfac)
    as (r & e & t & Hcalc & _ & Hco2 & Hfuel & Htrees & Hcost).
  eexists r, e, _, t. split; [exact Hcalc|].
  assert (H30 : 30 <= r_co2 r).
  { rewrite Hco2. unfold co2_of. rewrite apply_saf_factor by lia.
    pose proof (estimate_co2_lower dist f (rf_var a) Hd Hf) as He.
    assert (0 <= IZR (saf_var a) <= 50)
      by (split; [apply (IZR_le 0) | apply (IZR_le _ 50)]; lia).
    nra. }
  split; [exact H30|].
  rewrite Hfuel, Htrees, Hcost. unfold fuel_liters_from_co2, trees_needed.
  unfold_consts. repeat split; lra.
Qed.

Lemma calculated_figures_positive_witness :
  exists r e fs' t,
    calculate_action decimal_builtins sample_now
      (sample_app "" "" "1000" "A320" true 50) ∅
    = (Calculated r e, fs', t) /\
    30 <= r_co2 r /\ 0 < r_fuel r /\ 0 < r_trees r /\ 0 < r_cost r.
Proof.
  apply (calculated_figures_positive decimal_builtins sample_now
           (sample_app "" "" "1000" "A320" true 50) ∅ 1000 (115 / 1000)).
  - apply sample_manual_distance; reflexivity.
  - lra.
  - apply sample_factor_A320.
  - lra.
  - cbn [saf_var sample_app]. lia.
Defined.

(** For a distance and a factor that are not negative: a larger blend never
    raises the CO2 figure, the radiative forcing never lowers it, and a
    larger factor never lowers it (blends up to 125 percent). *)
Theorem co2_directions (d f1 f2 : R) (rf : bool) (s1 s2 : Z) :
  0 <= d -> 0 <= f1 -> f1 <= f2 -> (0 <= s1 <= s2)%Z -> (s2 <= 125)%Z ->
  co2_of d f1 rf s2 <= co2_of d f1 rf s1 /\
  co2_of d f1 false s1 <= co2_of d f1 true s1 /\
  co2_of d f1 rf s1 <= co2_of d f2 rf s1.
Proof.
  intros Hd Hf1 Hf Hs Hs2. unfold co2_of.
  pose proof (estimate_co2_lower d f1 rf Hd Hf1) as He.
  split; [apply apply_saf_blend_le; [lra | exact Hs]|].
  split.
  - apply apply_saf_le; [lia|].
    pose proof (estimate_co2_lower d f1 false Hd Hf1) as He0.
    change (estimate_co2 d f1 true) with (estimate_co2 d f1 false * RF_MULTIPLIER).
    unfold_consts. lra.
  - apply apply_saf_le; [lia|]. apply estimate_co2_factor_le; assumption.
Qed.

Lemma co2_directions_witness :
  co2_of 1000 (115 / 1000) true 50 <= co2_of 1000 (115 / 1000) true 10 /\
  co2_of 1000 (115 / 1000) false 10 <= co2_of 1000 (115 / 1000) true 10 /\
  co2_of 1000 (115 / 1000) true 10 <= co2_of 1000 (3 / 10) true 10.
Proof.
  apply (co2_directions 1000 (115 / 1000) (3 / 10) true 10 50); lra || lia.
Defined.

(** The suggestion and the surcharge do not draw the line at the same
    place: the flight of exactly 1500 km, and only this one, is told to be
    a long haul and is charged the surcharge of a short haul. *)
Theorem long_haul_suggestion_boundary (d f : R) :
  (suggestion_for d = LongHaul /\ estimate_co2 d f false = d * f + 50)
  <-> d = 1500.
Proof.
  unfold suggestion_for. split.
  - intros [Hs He].
    destruct (Rlt_dec d 350); [discriminate|].
    destruct (Rlt_dec d 1500); [discriminate|].
    destruct (Rle_dec d 1500) as [Hle|Hgt]; [lra|].
    rewrite estimate_co2_long in He by lra. lra.
  - intros ->. split.
    + destruct (Rlt_dec 1500 350); [lra|].
      destruct (Rlt_dec 1500 1500); [lra | reflexivity].
    + apply (estimate_co2_short 1500 f false). lra.
Qed.

(** ** More properties of the reference data and of the ledger *)

(** Of the rows of one aircraft, the last one whose factor is a number
    gives the factor of the table. *)
Theorem factors_last_row_wins
    (B : builtins) (path : string) (fs : filesystem) (content : string)
    (before after : list dictrow) (row : dictrow)
    (k : option string) (s : string) (x : R) :
  fs !! path = Some content ->
  DictReader content = Some (before ++ row :: after) ->
  row !! "AircraftType" = Some k ->
  row !! "EmissionFactor_kgCO2perkm" = Some (Some s) ->
  py_float B s = Some x ->
  no_later_row B k after ->
  exists d, load_csv_factors B path fs = Ok d /\ d !! k = Some x.
Proof.
  intros Hfile Hrows Hk Hs Hx Hlater. unfold load_csv_factors.
  rewrite Hfile, Hrows. eexists. split; [reflexivity|].
  apply (load_rows_last B before row after k s x); assumption.
Qed.

Lemma factors_last_row_wins_witness :
  exists d,
    load_csv_factors decimal_builtins EMISSION_CSV
      {[ EMISSION_CSV := sample_duplicate_factors ]} = Ok d /\
    d !! Some "A320" = Some (2 / 10).
Proof.
  apply (factors_last_row_wins decimal_builtins EMISSION_CSV
           {[ EMISSION_CSV := sample_duplicate_factors ]}
           sample_duplicate_factors
           [dict_of_row ["AircraftType"; "EmissionFactor_kgCO2perkm"]
              ["A320"; "0.115"];
            dict_of_row ["AircraftType"; "EmissionFactor_kgCO2perkm"]
              ["B777"; "0.3"]]
           []
           (dict_of_row ["AircraftType"; "EmissionFactor_kgCO2perkm"]
              ["A320"; "0.2"])
           (Some "A320") "0.2" (2 / 10)).
  - apply lookup_singleton_eq.
  - reflexivity.
  - reflexivity.
  - reflexivity.
  - reflexivity.
  - constructor.
Defined.

(** *** The ledger over several sessions *)

Lemma log_all_other rows : forall path path' (fs : filesystem),
  path' <> path -> log_all rows path fs !! path' = fs !! path'.
Proof.
  induction rows as [|row rows IH]; intros path path' fs Hne; [reflexivity|].
  cbn [log_all foldl]. fold (log_all rows path (log_history_row row path fs)).
  rewrite IH by assumption. apply log_history_row_other. assumption.
Qed.

Lemma filter_nonempty_append (l1 l2 : list (list string)) :
  Forall (fun row => row <> []) l1 ->
  filter (fun row => row <> []) (l1 ++ l2)
  = l1 ++ filter (fun row => row <> []) l2.
Proof.
  intros H. rewrite filter_app, (filter_nonempty_rows l1 H). reflexivity.
Qed.

(** The entries of a ledger written in earlier sessions stay, and the new
    ones come after them; no other file is touched. *)
Theorem ledger_keeps_earlier_entries
    (old rows : list (list string)) (fs : filesystem) :
  fs !! HISTORY_CSV = Some (csv_text (HISTORY_HEADER :: old)) ->
  Forall (fun row => row <> []) old ->
  Forall (fun row => row <> []) rows ->
  read_all fs = Ok (dict_of_row HISTORY_HEADER <$> old) /\
  read_all (log_all rows HISTORY_CSV fs)
    = Ok (dict_of_row HISTORY_HEADER <$> (old ++ rows)) /\
  forall path, path <> HISTORY_CSV ->
    log_all rows HISTORY_CSV fs !! path = fs !! path.
Proof.
  intros Hfs Hold Hrows. split; [|split].
  - unfold read_all, DictReader. rewrite Hfs, csv_reader_writer.
    cbn [fmap option_fmap option_map dict_rows].
    rewrite filter_nonempty_rows by assumption. reflexivity.
  - unfold read_all, DictReader.
    rewrite (log_all_old rows HISTORY_CSV fs _ Hfs), csv_reader_writer.
    cbn [fmap option_fmap option_map dict_rows List.app].
    rewrite filter_nonempty_rows by (apply Forall_app; auto). reflexivity.
  - intros path Hne. apply log_all_other. exact Hne.
Qed.

Lemma ledger_keeps_earlier_entries_witness :
  read_all (log_all [sample_entry] HISTORY_CSV
              (log_all [sample_entry; sample_entry] HISTORY_CSV ∅))
  = Ok (dict_of_row HISTORY_HEADER
          <$> ([sample_entry; sample_entry] ++ [sample_entry])).
Proof.
  apply (ledger_keeps_earlier_entries [sample_entry; sample_entry]
           [sample_entry] (log_all [sample_entry; sample_entry] HISTORY_CSV ∅)).
  - apply log_all_new. apply lookup_empty.
  - repeat constructor; discriminate.
  - repeat constructor; discriminate.
Defined.

(** The header is written for a missing file only: in a file that exists
    and is empty the first entry logged stands where the reader takes the
    field names, and it is not read as an entry; the entries after it are
    read under its fields as names. *)
Theorem empty_ledger_loses_first_entry
    (row : list string) (rows : list (list string)) (fs : filesystem) :
  fs !! HISTORY_CSV = Some "" ->
  Forall (fun row => row <> []) rows ->
  read_all (log_history_row row HISTORY_CSV fs) = Ok [] /\
  read_all (log_all (row :: rows) HISTORY_CSV fs)
    = Ok (dict_of_row row <$> rows).
Proof.
  intros Hfs Hrows.
  assert (Hall : forall l, read_all (log_all (row :: l) HISTORY_CSV fs)
                   = Ok (dict_of_row row <$> filter (fun r => r <> []) l)).
  { intros l. unfold read_all, DictReader.
    rewrite (log_all_old (row :: l) HISTORY_CSV fs [] Hfs), csv_reader_writer.
    reflexivity. }
  split.
  - apply (Hall []).
  - rewrite Hall, filter_nonempty_rows by assumption. reflexivity.
Qed.

Lemma empty_ledger_loses_first_entry_witness :
  read_all (log_history_row sample_entry HISTORY_CSV {[ HISTORY_CSV := "" ]})
  = Ok [].
Proof.
  apply (empty_ledger_loses_first_entry sample_entry []
           {[ HISTORY_CSV := "" ]}).
  - apply lookup_singleton_eq.
  - constructor.
Defined.

(** *** The history table and a row it cannot show *)

Lemma insert_rows_app B l1 : forall l2 tree,
  insert_rows B (l1 ++ l2) tree
  = match insert_rows B l1 tree with
    | (tree', None) => insert_rows B l2 tree'
    | stopped => stopped
    end.
Proof.
  induction l1 as [|row l1 IH]; intros l2 tree; [reflexivity|].
  cbn [List.app insert_rows]. destruct (tree_values B row); [apply IH | reflexivity].
Qed.

Lemma tree_values_bad_distance B ts o d dist ac rf saf co2 fuel trees cost :
  py_float B dist = None ->
  tree_values B (dict_of_row HISTORY_HEADER
                   [ts; o; d; dist; ac; rf; saf; co2; fuel; trees; cost])
  = Raise ValueError.
Proof.
  intros Hx. unfold tree_values, getitem.
  replace (dict_of_row HISTORY_HEADER _ !! "origin") with (Some (Some o))
    by reflexivity.
  replace (dict_of_row HISTORY_HEADER _ !! "destination") with (Some (Some d))
    by reflexivity.
  replace (dict_of_row HISTORY_HEADER _ !! "timestamp") with (Some (Some ts))
    by reflexivity.
  replace (dict_of_row HISTORY_HEADER _ !! "distance_km") with (Some (Some dist))
    by reflexivity.
  cbn [mbind res_bind float_of]. rewrite Hx. reflexivity.
Qed.

(** The refresh of the history table stops at the first entry whose
    distance is not a number: the table keeps the lines of the entries
    before it, the entries after it are not shown, and the [ValueError]
    leaves the method. *)
Theorem refresh_stops_at_unreadable_row
    (B : builtins) (good rest : list (list string)) (views : list tree_row)
    (ts o d dist ac rf saf co2 fuel trees cost : string)
    (fs : filesystem) (old : list tree_row) :
  fs !! HISTORY_CSV
    = Some (csv_text (HISTORY_HEADER :: good
                        ++ [ts; o; d; dist; ac; rf; saf; co2; fuel; trees; cost]
                        :: rest)) ->
  mapM (entry_view B) good = Some views ->
  py_float B dist = None ->
  _refresh_history_tree B fs (Some old) = (Some views, Some ValueError).
Proof.
  intros Hfs Hgood Hdist.
  destruct (entry_view_nonempty B good views Hgood) as [Hne _].
  unfold _refresh_history_tree, read_all, DictReader.
  rewrite Hfs, csv_reader_writer.
  cbn [fmap option_fmap option_map dict_rows].
  rewrite filter_nonempty_append by assumption.
  rewrite filter_cons_True by discriminate.
  rewrite fmap_app, fmap_cons, insert_rows_app.
  rewrite (insert_rows_entries B good views []) by assumption.
  cbn [insert_rows List.app].
  rewrite tree_values_bad_distance by assumption. reflexivity.
Qed.

Lemma refresh_stops_at_unreadable_row_witness :
  _refresh_history_tree decimal_builtins
    {[ HISTORY_CSV :=
         csv_text (HISTORY_HEADER :: [sample_entry]
                     ++ [sample_now; "DEL"; "BOM"; "far"; "A320"; "False"; "0";
                         "182.0"; "72.0"; "8.3"; "109.2"]
                     :: [sample_entry]) ]}
    (Some [])
  = (Some [TreeRow (Some sample_now) ("DEL " +:+ ARROW +:+ " BOM")
             (11480 / 10) (Some "A320") (1820 / 10)],
     Some ValueError).
Proof.
  apply (refresh_stops_at_unreadable_row decimal_builtins [sample_entry]
           [sample_entry] _ sample_now "DEL" "BOM" "far" "A320" "False" "0"
           "182.0" "72.0" "8.3" "109.2").
  - apply lookup_singleton_eq.
  - reflexivity.
  - reflexivity.
Defined.

(** ** A calculation and the history table *)

Lemma round_half_even_IZR (q : Z) : round_half_even (IZR q) = q.
Proof.
  unfold round_half_even.
  assert (Hup : up (IZR q) = (q + 1)%Z).
  { symmetry. apply tech_up; rewrite plus_IZR; lra. }
  rewrite Hup. replace (q + 1 - 1)%Z with q by lia.
  destruct (Rlt_dec (IZR q - IZR q) (1 / 2)) as [_|Hn]; [reflexivity|].
  exfalso. apply Hn. lra.
Qed.

(** The format with one decimal of a number of tenths. *)
Lemma decimal_fmt_1f_tenths (q : Z) :
  (0 <= q)%Z ->
  decimal_fmt_1f (IZR q / 10)
  = str_int (q / 10) +:+ "." +:+ str_int (q mod 10).
Proof.
  intros Hq. apply IZR_le in Hq. unfold decimal_fmt_1f.
  replace (Rabs (IZR q / 10) * 10) with (IZR q)
    by (rewrite Rabs_pos_eq by lra; lra).
  rewrite round_half_even_IZR.
  destruct (Rlt_dec (IZR q / 10) 0) as [Hneg|_]; [lra|].
  apply append_nil_l.
Qed.

(** A calculation on a fresh ledger leaves the history table with one
    line, the line of the calculation, whatever the table showed before:
    the route of the two codes, and the distance and the CO2 figure as
    [float] reads them back from their format with one decimal. *)
Theorem calculation_shows_in_history
    (B : builtins) (now : string) (a : app) (fs : filesystem)
    (old : list tree_row) (dist f x y : R) :
  history_tree a = Some old ->
  fs !! HISTORY_CSV = None ->
  flight_distance B a = inr dist ->
  factors a !! Some (ac_cb a) = Some f ->
  py_float B (fmt_1f B dist) = Some x ->
  py_float B (fmt_1f B (co2_of dist f (rf_var a) (saf_var a))) = Some y ->
  exists r fs',
    calculate_action B now a fs
    = (Calculated r None, fs',
       Some [TreeRow (Some now)
               (_parse_iata_from_combo (origin_var a) +:+ " " +:+ ARROW
                  +:+ " " +:+ _parse_iata_from_combo (dest_var a))
               x (Some (ac_cb a)) y]) /\
    r_dist r = dist /\
    r_co2 r = co2_of dist f (rf_var a) (saf_var a).
Proof.
  intros Htree Hnone Hdist Hf Hx Hy. unfold calculate_action.
  rewrite Hdist, Hf, Htree.
  match goal with
  | |- context [log_history_row ?e HISTORY_CSV fs] =>
      change (log_history_row e HISTORY_CSV fs)
        with (log_all [e] HISTORY_CSV fs);
      rewrite (refresh_after_log_all B [e]
                 [TreeRow (Some now)
                    (_parse_iata_from_combo (origin_var a) +:+ " " +:+ ARROW
                       +:+ " " +:+ _parse_iata_from_combo (dest_var a))
                    x (Some (ac_cb a)) y] fs old Hnone)
  end.
  - eexists _, _. split; [reflexivity|]. split; reflexivity.
  - unfold co2_of in Hy.
    cbn [mapM history_entry entry_view r_dist r_co2].
    rewrite Hx, Hy. reflexivity.
Qed.

Lemma calculation_shows_in_history_witness :
  exists r fs',
    calculate_action decimal_builtins sample_now
      (App sample_factors sample_airports "" "" "1000" "A320" false 0
         (Some [TreeRow None "" 0 None 0])) ∅
    = (Calculated r None, fs',
       Some [TreeRow (Some sample_now) ("" +:+ " " +:+ ARROW +:+ " " +:+ "")
               (10000 / 10) (Some "A320") (1650 / 10)]) /\
    r_dist r = 1000 /\
    r_co2 r = co2_of 1000 (115 / 1000) false 0.
Proof.
  assert (H1 : 1000 = IZR 10000 / 10) by lra.
  assert (H2 : co2_of 1000 (115 / 1000) false 0 = IZR 1650 / 10).
  { unfold co2_of, apply_saf, estimate_co2. unfold_consts. cbn [Z.ltb Z.compare].
    destruct (Rle_dec 1000 1500); lra. }
  apply (calculation_shows_in_history decimal_builtins sample_now
           (App sample_factors sample_airports "" "" "1000" "A320" false 0
              (Some [TreeRow None "" 0 None 0])) ∅
           [TreeRow None "" 0 None 0] 1000 (115 / 1000)
           (10000 / 10) (1650 / 10)).
  - reflexivity.
  - apply lookup_empty.
  - reflexivity.
  - apply lookup_singleton_eq.
  - cbn [py_float fmt_1f decimal_builtins]. rewrite H1 at 1.
    rewrite decimal_fmt_1f_tenths by lia. reflexivity.
  - cbn [py_float fmt_1f decimal_builtins rf_var saf_var]. rewrite H2.
    rewrite decimal_fmt_1f_tenths by lia. reflexivity.
Defined.

(** ** The export on the two kinds of platform *)

Lemma no_newline_append s t :
  no_newline (s +:+ t) = no_newline s && no_newline t.
Proof.
  induction s as [|c s IH]; [reflexivity|].
  rewrite append_cons. cbn [no_newline]. rewrite IH. apply andb_assoc.
Qed.

Lemma no_newline_double_quotes s :
  no_newline (double_quotes s) = no_newline s.
Proof.
  induction s as [|c s IH]; [reflexivity|].
  cbn [double_quotes no_newline]. destruct (Ascii.eqb c DQUOTE) eqn:Hc.
  - apply Ascii.eqb_eq in Hc. subst c. cbn [no_newline]. rewrite IH. reflexivity.
  - cbn [no_newline]. rewrite IH. reflexivity.
Qed.

Lemma no_newline_field s : no_newline s = true -> no_newline (csv_field s) = true.
Proof.
  intros Hs. unfold csv_field. destruct (has_special s); [|exact Hs].
  unfold quoted. cbn [no_newline].
  rewrite no_newline_append, no_newline_double_quotes, Hs. reflexivity.
Qed.

Lemma no_newline_join row :
  Forall (fun f => no_newline f = true) row -> no_newline (csv_join row) = true.
Proof.
  induction 1 as [|f row Hf Hrow IH]; [reflexivity|].
  destruct row as [|g row]; [apply no_newline_field; exact Hf|].
  change (csv_join (f :: g :: row))
    with (csv_field f +:+ String COMMA (csv_join (g :: row))).
  rewrite no_newline_append, no_newline_field by exact Hf.
  cbn [no_newline andb]. rewrite IH. reflexivity.
Qed.

Lemma no_newline_line row :
  Forall (fun f => no_newline f = true) row -> no_newline (csv_line row) = true.
Proof.
  intros H. unfold csv_line.
  destruct row as [|[|c f] [|g row]]; try (apply no_newline_join; exact H).
  reflexivity.
Qed.

Lemma csv_text_lines rows :
  csv_text rows
  = foldr (fun s text => s +:+ CRLF +:+ text) "" (csv_line <$> rows).
Proof.
  induction rows as [|row rows IH]; [reflexivity|].
  rewrite fmap_cons. cbn [foldr]. rewrite <- IH.
  change (csv_text (row :: rows)) with (csv_writerow row +:+ csv_text rows).
  replace (csv_writerow row) with (csv_line row +:+ CRLF)
    by (destruct row as [|[|c f] [|g row]]; reflexivity).
  rewrite append_assoc. reflexivity.
Qed.

(** The export to the file of a path is the export to its key, and the
    export to a path that names the ledger empties the ledger: the target
    is opened for writing before the source is read. *)
Lemma export_history_to_other file_of linesep answer (fs : filesystem) content :
  fs !! HISTORY_CSV = Some content ->
  answer <> "" -> file_of answer <> HISTORY_CSV ->
  export_history_to file_of linesep answer fs
  = (Some ExportSuccessful,
     <[file_of answer := write_newlines linesep (read_newlines content)]> fs).
Proof.
  intros H Hne Hother. unfold export_history_to, path_exists.
  rewrite bool_decide_eq_true_2 by (rewrite H; eauto). cbn [negb].
  apply String.eqb_neq in Hne. rewrite Hne.
  rewrite lookup_insert_ne, H by assumption. cbn [default].
  rewrite insert_insert_eq. reflexivity.
Qed.

Lemma export_history_to_ledger file_of linesep answer (fs : filesystem) content :
  fs !! HISTORY_CSV = Some content ->
  answer <> "" -> file_of answer = HISTORY_CSV ->
  export_history_to file_of linesep answer fs
  = (Some ExportSuccessful, <[HISTORY_CSV := ""]> fs).
Proof.
  intros H Hne Hsame. unfold export_history_to, path_exists.
  rewrite bool_decide_eq_true_2 by (rewrite H; eauto). cbn [negb].
  apply String.eqb_neq in Hne. rewrite Hne, Hsame.
  rewrite lookup_insert_eq. cbn [default read_newlines write_newlines].
  rewrite insert_insert_eq. reflexivity.
Qed.

(** Where [os.linesep] is a carriage return and a line feed, the export
    of a ledger whose fields have no line break, to a path that names
    another file than the ledger, writes the ledger byte for byte to this
    file and changes no other file. To a path that names the ledger itself,
    under whatever text, the export empties the ledger. *)
Theorem export_history_crlf_copy
    (file_of : string -> string) (rows : list (list string))
    (answer : string) (fs : filesystem) :
  fs !! HISTORY_CSV = Some (csv_text rows) ->
  Forall (Forall (fun f => no_newline f = true)) rows ->
  answer <> "" ->
  (file_of answer <> HISTORY_CSV ->
   export_history_to file_of CRLF answer fs
   = (Some ExportSuccessful, <[file_of answer := csv_text rows]> fs)) /\
  (file_of answer = HISTORY_CSV ->
   export_history_to file_of CRLF answer fs
   = (Some ExportSuccessful, <[HISTORY_CSV := ""]> fs)).
Proof.
  intros Hfs Hrows Hne. split.
  - intros Hother.
    rewrite (export_history_to_other _ _ _ _ _ Hfs) by assumption.
    rewrite csv_text_lines, newlines_crlf_lines; [reflexivity|].
    apply Forall_fmap. eapply Forall_impl; [exact Hrows|].
    intros row Hrow. apply no_newline_line. exact Hrow.
  - intros Hsame. apply (export_history_to_ledger _ _ _ _ _ Hfs); assumption.
Qed.

Lemma export_history_crlf_copy_witness :
  export_history_to sample_file_of CRLF "/home/user/export.csv"
    {[ HISTORY_CSV := csv_text [HISTORY_HEADER; sample_entry] ]}
  = (Some ExportSuccessful,
     <[ "/home/user/export.csv" := csv_text [HISTORY_HEADER; sample_entry] ]>
       {[ HISTORY_CSV := csv_text [HISTORY_HEADER; sample_entry] ]}) /\
  export_history_to sample_file_of CRLF "/home/user/history.csv"
    {[ HISTORY_CSV := csv_text [HISTORY_HEADER; sample_entry] ]}
  = (Some ExportSuccessful,
     <[ HISTORY_CSV := "" ]>
       {[ HISTORY_CSV := csv_text [HISTORY_HEADER; sample_entry] ]}).
Proof.
  split.
  - apply (proj1 (export_history_crlf_copy sample_file_of
                    [HISTORY_HEADER; sample_entry] "/home/user/export.csv"
                    {[ HISTORY_CSV := csv_text [HISTORY_HEADER; sample_entry] ]}
                    ltac:(apply lookup_singleton_eq)
                    ltac:(repeat constructor) ltac:(discriminate))).
    discriminate.
  - apply (proj2 (export_history_crlf_copy sample_file_of
                    [HISTORY_HEADER; sample_entry] "/home/user/history.csv"
                    {[ HISTORY_CSV := csv_text [HISTORY_HEADER; sample_entry] ]}
                    ltac:(apply lookup_singleton_eq)
                    ltac:(repeat constructor) ltac:(discriminate))).
    reflexivity.
Defined.

Lemma export_history_lf_drops_cr_witness :
  exists src dst,
    log_history_row sample_entry HISTORY_CSV ∅ !! HISTORY_CSV = Some src /\
    (export_history (String LF "") "export.csv"
       (log_history_row sample_entry HISTORY_CSV ∅)).2 !! "export.csv"
    = Some dst /\
    has_cr src = true /\ has_cr dst = false.
Proof.
  apply (export_history_lf_drops_cr sample_entry "export.csv" ∅);
    discriminate.
Defined.

(** ** The comparison, the reset and the two distances *)

Lemma parse_iata_empty : _parse_iata_from_combo "" = "".
Proof. reflexivity. Qed.

(** What [calculate_action] takes for the distance, [compare_action]
    takes too, when [float] refuses the empty string and reads the field
    as it reads the stripped field. *)
Lemma compare_distance_of_flight B a dist :
  py_float B "" = None ->
  py_float B (dist_var a) = py_float B (strip (dist_var a)) ->
  flight_distance B a = inr dist ->
  compare_distance B a = Some dist.
Proof.
  intros Hempty Hstrip. unfold flight_distance, compare_distance.
  destruct (negb (String.eqb (_parse_iata_from_combo (origin_var a)) "")
            && negb (String.eqb (_parse_iata_from_combo (dest_var a)) "")).
  - destruct (airports a !! _parse_iata_from_combo (origin_var a)) as [a0|];
      [|discriminate].
    destruct (airports a !! _parse_iata_from_combo (dest_var a)) as [b0|];
      [|discriminate].
    intros [= <-]. reflexivity.
  - destruct (py_float B (strip (dist_var a))) as [d|] eqn:Hd; [|discriminate].
    intros [= <-].
    assert (Hfield : (if String.eqb (dist_var a) "" then Some 0
                      else py_float B (dist_var a)) = Some d).
    { destruct (String.eqb (dist_var a) "") eqn:E.
      - apply String.eqb_eq in E. rewrite E in Hstrip. congruence.
      - congruence. }
    destruct (airports a !! _parse_iata_from_combo (dest_var a)); exact Hfield.
Qed.

(** The chart of the comparison agrees with the calculation: when
    [calculate_action] computes a result, [compare_action] draws the chart
    of the same distance, and the bar of the selected aircraft is the CO2
    figure of the result. [float] is taken to refuse the empty string and
    to read the distance field as it reads the stripped field. *)
Theorem compare_agrees_with_calculation
    (B : builtins) (now : string) (a : app) (fs fs' : filesystem)
    (r : result) (e : option pyexn) (t : option (list tree_row)) :
  py_float B "" = None ->
  py_float B (dist_var a) = py_float B (strip (dist_var a)) ->
  calculate_action B now a fs = (Calculated r e, fs', t) ->
  exists bars,
    compare_action B true a = CompareChart (r_dist r) bars /\
    bars !! Some (ac_cb a) = Some (r_co2 r) /\
    forall k,
      bars !! k
      = (fun v => co2_of (r_dist r) v (rf_var a) (saf_var a)) <$> factors a !! k.
Proof.
  intros Hempty Hstrip. unfold calculate_action.
  destruct (flight_distance B a) as [m|dist] eqn:Hdist; [discriminate|].
  destruct (factors a !! Some (ac_cb a)) as [f|] eqn:Hf; [|discriminate].
  destruct (_refresh_history_tree _ _ _) as [t' e']. intros [= <- _ _ _].
  cbn [r_dist r_co2]. unfold compare_action.
  rewrite (compare_distance_of_flight B a dist Hempty Hstrip Hdist).
  eexists. split; [reflexivity|]. split.
  - rewrite lookup_fmap, Hf. reflexivity.
  - intros k. rewrite lookup_fmap. reflexivity.
Qed.

Lemma compare_agrees_with_calculation_witness :
  exists bars,
    compare_action decimal_builtins true (sample_app "" "" "1000" "A320" false 0)
    = CompareChart 1000 bars /\
    bars !! Some "A320" = Some (apply_saf (estimate_co2 1000 (115 / 1000) false) 0).
Proof.
  destruct (compare_agrees_with_calculation decimal_builtins sample_now
              (sample_app "" "" "1000" "A320" false 0) ∅
              (log_history_row
                 (history_entry decimal_builtins sample_now "" "" "A320" false 0
                    (Result 1000 (apply_saf (estimate_co2 1000 (115 / 1000) false) 0)
                       (fuel_liters_from_co2
                          (apply_saf (estimate_co2 1000 (115 / 1000) false) 0))
                       (trees_needed
                          (apply_saf (estimate_co2 1000 (115 / 1000) false) 0))
                       (apply_saf (estimate_co2 1000 (115 / 1000) false) 0
                        * OFFSET_COST_PER_KG)))
                 HISTORY_CSV ∅)
              (Result 1000 (apply_saf (estimate_co2 1000 (115 / 1000) false) 0)
                 (fuel_liters_from_co2
                    (apply_saf (estimate_co2 1000 (115 / 1000) false) 0))
                 (trees_needed
                    (apply_saf (estimate_co2 1000 (115 / 1000) false) 0))
                 (apply_saf (estimate_co2 1000 (115 / 1000) false) 0
                  * OFFSET_COST_PER_KG))
              None None)
    as (bars & Hchart & Hbar & _).
  - reflexivity.
  - reflexivity.
  - reflexivity.
  - exists bars. split; [exact Hchart | exact Hbar].
Defined.

(** With no code and an empty distance field [calculate_action] asks for
    an input and [compare_action] does not: it draws the chart of a flight
    of 0 km, in which every aircraft has the same bar. *)
Theorem compare_of_an_empty_form
    (B : builtins) (now : string) (a : app) (fs : filesystem) :
  origin_var a = "" -> dist_var a = "" -> py_float B "" = None ->
  calculate_action B now a fs = (Rejected InputRequired, fs, history_tree a) /\
  exists bars,
    compare_action B true a = CompareChart 0 bars /\
    (forall k, is_Some (bars !! k) <-> is_Some (factors a !! k)) /\
    forall k y, bars !! k = Some y -> y = co2_of 0 0 (rf_var a) (saf_var a).
Proof.
  intros Ho Hd Hempty. split.
  - apply calculate_action_no_distance. unfold flight_distance.
    rewrite Ho, Hd, parse_iata_empty. cbn [String.eqb negb andb].
    change (strip "") with "". rewrite Hempty. reflexivity.
  - unfold compare_action, compare_distance.
    rewrite Ho, Hd, parse_iata_empty. cbn [String.eqb negb andb].
    eexists. split; [|split].
    + destruct (airports a !! _parse_iata_from_combo (dest_var a)); reflexivity.
    + intros k. rewrite lookup_fmap. apply fmap_is_Some.
    + intros k y. rewrite lookup_fmap.
      destruct (factors a !! k) as [v|]; [|discriminate].
      intros [= <-]. unfold co2_of, estimate_co2. f_equal.
      destruct (Rle_dec 0 SHORT_HAUL_MAX_KM); destruct (rf_var a); lra.
Qed.

Lemma compare_of_an_empty_form_witness :
  calculate_action decimal_builtins sample_now
    (sample_app "" "" "" "A320" false 0) ∅
  = (Rejected InputRequired, ∅, None) /\
  exists bars,
    compare_action decimal_builtins true (sample_app "" "" "" "A320" false 0)
    = CompareChart 0 bars.
Proof.
  destruct (compare_of_an_empty_form decimal_builtins sample_now
              (sample_app "" "" "" "A320" false 0) ∅)
    as (Hcalc & bars & Hchart & _).
  - reflexivity.
  - reflexivity.
  - reflexivity.
  - split; [exact Hcalc | exists bars; exact Hchart].
Defined.

(** With two codes of which one is no airport of the table the two
    actions part: [calculate_action] shows that the airport is not found
    and ignores the distance field, [compare_action] takes the distance
    field, and 0 km when it is empty. *)
Theorem unknown_airport_calculate_and_compare
    (B : builtins) (now : string) (a : app) (fs : filesystem) :
  _parse_iata_from_combo (origin_var a) <> "" ->
  _parse_iata_from_combo (dest_var a) <> "" ->
  airports a !! _parse_iata_from_combo (origin_var a) = None \/
  airports a !! _parse_iata_from_combo (dest_var a) = None ->
  calculate_action B now a fs = (Rejected AirportNotFound, fs, history_tree a) /\
  compare_distance B a
  = (if String.eqb (dist_var a) "" then Some 0 else py_float B (dist_var a)).
Proof.
  intros Ho Hd Hmiss.
  apply String.eqb_neq in Ho. apply String.eqb_neq in Hd. split.
  - apply calculate_action_no_distance. unfold flight_distance.
    rewrite Ho, Hd. cbn [negb andb].
    destruct Hmiss as [-> | ->]; [reflexivity|].
    destruct (airports a !! _); reflexivity.
  - unfold compare_distance. rewrite Ho, Hd. cbn [negb andb].
    destruct Hmiss as [-> | ->]; [reflexivity|].
    destruct (airports a !! _); reflexivity.
Qed.

Lemma unknown_airport_calculate_and_compare_witness :
  calculate_action decimal_builtins sample_now
    (sample_app "DEL" "XXX" "1000" "A320" false 0) ∅
  = (Rejected AirportNotFound, ∅, None) /\
  compare_distance decimal_builtins (sample_app "DEL" "XXX" "1000" "A320" false 0)
  = Some 1000.
Proof.
  destruct (unknown_airport_calculate_and_compare decimal_builtins sample_now
              (sample_app "DEL" "XXX" "1000" "A320" false 0) ∅)
    as [Hcalc Hcmp].
  - discriminate.
  - discriminate.
  - right. reflexivity.
  - split; [exact Hcalc|]. rewrite Hcmp. reflexivity.
Defined.

(** After a reset the form is empty: the next calculation asks for an
    input and leaves the ledger and the history table alone, whatever the
    form held before; the tables of the factors and of the airports are
    those of before the reset. *)
Theorem calculation_after_reset
    (B : builtins) (now first_ac : string) (a : app) (fs : filesystem) :
  py_float B "" = None ->
  calculate_action B now (reset_home first_ac a) fs
  = (Rejected InputRequired, fs, history_tree a) /\
  factors (reset_home first_ac a) = factors a /\
  airports (reset_home first_ac a) = airports a /\
  (factors a <> ∅ -> ac_cb (reset_home first_ac a) = first_ac) /\
  (factors a = ∅ -> ac_cb (reset_home first_ac a) = ac_cb a).
Proof.
  intros Hempty. split; [|split; [reflexivity|split; [reflexivity|split]]].
  - apply (calculate_action_no_distance B now (reset_home first_ac a) fs).
    unfold flight_distance. cbn [reset_home origin_var dest_var dist_var].
    rewrite parse_iata_empty. cbn [String.eqb negb andb].
    change (strip "") with "". rewrite Hempty. reflexivity.
  - intros Hne. cbn [reset_home ac_cb].
    rewrite bool_decide_eq_false_2 by exact Hne. reflexivity.
  - intros He. cbn [reset_home ac_cb].
    rewrite bool_decide_eq_true_2 by exact He. reflexivity.
Qed.

Lemma calculation_after_reset_witness :
  calculate_action decimal_builtins sample_now
    (reset_home "A320" (sample_app "DEL" "BOM" "1000" "A320" true 50)) ∅
  = (Rejected InputRequired, ∅, None).
Proof.
  apply (calculation_after_reset decimal_builtins sample_now "A320"
           (sample_app "DEL" "BOM" "1000" "A320" true 50) ∅).
  reflexivity.
Defined.

(** ** The route of a line of the history table *)

Lemma ROUTE_SEP_chars rest :
  ROUTE_SEP +:+ rest
  = String " " (String "226" (String "134" (String "146" (String " " rest)))).
Proof. reflexivity. Qed.

Lemma ascii_not_arrow c s : is_ascii (String c s) = true -> c <> "226"%char.
Proof. intros H ->. discriminate. Qed.

(** The separator does not start at an ASCII character that is followed
    by ASCII characters and then by the separator, or by nothing more. *)
Lemma prefix_route_sep_ascii c s t :
  is_ascii (String c s) = true ->
  t = "" \/ (exists rest, t = ROUTE_SEP +:+ rest) ->
  String.prefix ROUTE_SEP (String c (s +:+ t)) = false.
Proof.
  intros Hascii Ht.
  change ROUTE_SEP
    with (String " " (String "226" (String "134" (String "146" (String " " ""))))).
  cbn [String.prefix]. destruct (ascii_dec " " c) as [_|]; [|reflexivity].
  cbn [is_ascii] in Hascii. apply andb_prop in Hascii as [_ Hs].
  destruct s as [|c2 s].
  - rewrite append_nil_l. destruct Ht as [-> | [rest ->]]; [reflexivity|].
    rewrite ROUTE_SEP_chars. cbn [String.prefix].
    destruct (ascii_dec "226" " "); [discriminate | reflexivity].
  - rewrite append_cons. cbn [String.prefix].
    destruct (ascii_dec "226" c2) as [<-|]; [discriminate | reflexivity].
Qed.

Lemma before_route_sep_ascii s :
  is_ascii s = true -> before_sep ROUTE_SEP s = None.
Proof.
  induction s as [|c s IH]; intros Hascii; [reflexivity|].
  rewrite before_sep_cons.
  rewrite <- (append_nil_r s) at 1.
  rewrite (prefix_route_sep_ascii c s "" Hascii) by (left; reflexivity).
  cbn [is_ascii] in Hascii. apply andb_prop in Hascii as [_ Hs].
  rewrite (IH Hs). reflexivity.
Qed.

Lemma before_route_sep_first s rest :
  is_ascii s = true -> before_sep ROUTE_SEP (s +:+ ROUTE_SEP +:+ rest) = Some s.
Proof.
  induction s as [|c s IH]; intros Hascii.
  - rewrite append_nil_l, ROUTE_SEP_chars, before_sep_cons, <- ROUTE_SEP_chars.
    rewrite prefix_self_append. reflexivity.
  - rewrite append_cons, before_sep_cons.
    rewrite (prefix_route_sep_ascii c s _ Hascii) by (right; eauto).
    cbn [is_ascii] in Hascii. apply andb_prop in Hascii as [_ Hs].
    rewrite (IH Hs). reflexivity.
Qed.

Lemma substring_all s : forall m,
  (String.length s <= m)%nat -> String.substring 0 m s = s.
Proof.
  induction s as [|c s IH]; intros m Hm; [destruct m; reflexivity|].
  destruct m as [|m]; [cbn [String.length] in Hm; lia|].
  cbn [String.substring]. rewrite IH by (cbn [String.length] in Hm; lia).
  reflexivity.
Qed.

Lemma after_sep_cons sep c s :
  after_sep sep (String c s)
  = if String.prefix sep (String c s)
    then Some (String.substring (String.length sep)
                 (String.length (String c s)) (String c s))
    else after_sep sep s.
Proof. reflexivity. Qed.

Lemma after_route_sep_first s rest :
  is_ascii s = true -> after_sep ROUTE_SEP (s +:+ ROUTE_SEP +:+ rest) = Some rest.
Proof.
  induction s as [|c s IH]; intros Hascii.
  - rewrite append_nil_l, ROUTE_SEP_chars, after_sep_cons, <- ROUTE_SEP_chars.
    rewrite prefix_self_append, ROUTE_SEP_chars.
    change (String.length ROUTE_SEP) with 5%nat.
    cbn [String.substring String.length].
    rewrite substring_all by lia. reflexivity.
  - rewrite append_cons, after_sep_cons.
    rewrite (prefix_route_sep_ascii c s _ Hascii) by (right; eauto).
    cbn [is_ascii] in Hascii. apply andb_prop in Hascii as [_ Hs].
    exact (IH Hs).
Qed.

Lemma split_route_codes origin dest :
  is_ascii origin = true -> is_ascii dest = true ->
  split_route (origin +:+ ROUTE_SEP +:+ dest) = (origin, dest).
Proof.
  intros Ho Hd. unfold split_route.
  rewrite before_route_sep_first, after_route_sep_first by assumption.
  unfold contains. rewrite (before_route_sep_ascii dest Hd).
  rewrite bool_decide_eq_false_2; [reflexivity|].
  intros [? ?]. discriminate.
Qed.

(** The route that the history table is given for an entry splits back
    into the two codes of the entry, when the codes are ASCII text; a
    text without the separator splits into two empty codes. *)
Theorem history_route_splits
    (B : builtins) (ts o d dist ac rf saf co2 fuel trees cost : string)
    (v : tree_row) :
  is_ascii o = true -> is_ascii d = true ->
  tree_values B (dict_of_row HISTORY_HEADER
                   [ts; o; d; dist; ac; rf; saf; co2; fuel; trees; cost])
  = Ok v ->
  split_route (t_route v) = (o, d) /\
  forall text, is_ascii text = true -> split_route text = ("", "").
Proof.
  intros Ho Hd Hv. split.
  - unfold tree_values, getitem in Hv.
    replace (dict_of_row HISTORY_HEADER _ !! "origin") with (Some (Some o)) in Hv
      by reflexivity.
    replace (dict_of_row HISTORY_HEADER _ !! "destination") with (Some (Some d))
      in Hv by reflexivity.
    replace (dict_of_row HISTORY_HEADER _ !! "timestamp") with (Some (Some ts))
      in Hv by reflexivity.
    replace (dict_of_row HISTORY_HEADER _ !! "distance_km")
      with (Some (Some dist)) in Hv by reflexivity.
    replace (dict_of_row HISTORY_HEADER _ !! "aircraft") with (Some (Some ac))
      in Hv by reflexivity.
    replace (dict_of_row HISTORY_HEADER _ !! "co2_kg") with (Some (Some co2))
      in Hv by reflexivity.
    cbn [mbind res_bind float_of] in Hv.
    destruct (py_float B dist) as [x|]; [|discriminate].
    destruct (py_float B co2) as [y|]; [|discriminate].
    cbn [mbind res_bind mret res_ret] in Hv. injection Hv as <-.
    cbn [t_route str_of default].
    change (o +:+ " " +:+ ARROW +:+ " " +:+ d) with (o +:+ ROUTE_SEP +:+ d).
    apply split_route_codes; assumption.
  - intros text Htext. unfold split_route.
    rewrite (before_route_sep_ascii text Htext). reflexivity.
Qed.

Lemma history_route_splits_witness :
  split_route ("DEL " +:+ ARROW +:+ " BOM") = ("DEL", "BOM").
Proof.
  apply (history_route_splits decimal_builtins sample_now "DEL" "BOM" "1148.0"
           "A320" "False" "0" "182.0" "72.0" "8.3" "109.2"
           (TreeRow (Some sample_now) ("DEL " +:+ ARROW +:+ " BOM")
              (11480 / 10) (Some "A320") (1820 / 10))).
  - reflexivity.
  - reflexivity.
  - reflexivity.
Defined.

(** ** The estimator in binary64 *)

Module Binary64_facts.
Import PrimFloat.
#[local] Set Warnings "-inexact-float".
Local Open Scope float_scope.


(** C7, as the specification has it, fails in the arithmetic of the code:
    for 1000 km, the factor 0.115 and no radiative forcing the blend of 0
    gives 165.0 kg, of which 0.2 times is 33.0 kg, and the blend of 100
    gives 32.99999999999999 kg. *)
Lemma saf_full_is_not_a_fifth :
  Binary64.co2_of 1000 0.115 false 0 = Some 165 /\
  Binary64.co2_of 1000 0.115 false 100 = Some 0x1.07fffffffffffp+5 /\
  0.2 * 165 = 33 /\
  (0x1.07fffffffffffp+5 =? 33) = false /\
  (0x1.07fffffffffffp+5 <? 33) = true.
Proof. repeat split. Qed.

(** C7, amended. A blend of 0 percent leaves the estimate as it is, the
    SAF step being skipped, and a blend of 100 percent multiplies it by the
    float that [1 - 100 / 100 * 0.80] evaluates to, which is
    0.19999999999999996 ([0x1.9999999999998p-3]), below the float of 0.2. *)
Theorem saf_zero_and_full (dist base_factor : float) (rf : bool) :
  Binary64.co2_of dist base_factor rf 0
  = Some (Binary64.estimate_co2 dist base_factor rf) /\
  Binary64.co2_of dist base_factor rf 100
  = Some (Binary64.estimate_co2 dist base_factor rf * 0x1.9999999999998p-3) /\
  1 - 100 / 100 * Binary64.SAF_MAX_REDUCTION_PERCENT = 0x1.9999999999998p-3 /\
  (0x1.9999999999998p-3 <? 0.2) = true.
Proof. repeat split. Qed.

End Binary64_facts.
